(** * Session tokens, purpose tokens and the authorization check

    A shallow embedding of [src/services/token.service.ts],
    [src/services/auth.service.ts] and [src/middlewares/auth.ts].

    Asynchronous functions become computations in a state-and-exception
    monad over a world [W].  A thrown exception keeps the effects that
    happened before it: the persistence engine is used without
    transactions.  Timestamps ([Date], [Moment]) are their millisecond
    time values. *)

From Stdlib Require Import String Ascii List ZArith Bool Lia.
Import ListNotations.
Open Scope string_scope.
Open Scope Z_scope.

(** ** Exceptions and the effect monad *)

Inductive exn : Type :=
| ApiError (statusCode : Z) (message : string)   (* utils/ApiError *)
| Error (message : string)                       (* the built-in Error *)
| StoreError (code : string).                    (* raised by a collaborator *)

Inductive outcome (A : Type) : Type :=
| Returned (a : A)
| Thrown (e : exn).
Arguments Returned {A} a.
Arguments Thrown {A} e.

Definition M (W A : Type) : Type := W -> outcome A * W.

Definition ret {W A} (a : A) : M W A := fun w => (Returned a, w).

Definition throw {W A} (e : exn) : M W A := fun w => (Thrown e, w).

Definition bind {W A B} (m : M W A) (k : A -> M W B) : M W B :=
  fun w =>
    match m w with
    | (Returned a, w') => k a w'
    | (Thrown e, w') => (Thrown e, w')
    end.

(** [try { m } catch (error) { h error }] *)
Definition try_catch {W A} (m : M W A) (h : exn -> M W A) : M W A :=
  fun w =>
    match m w with
    | (Returned a, w') => (Returned a, w')
    | (Thrown e, w') => h e w'
    end.

Declare Scope eff_scope.
Delimit Scope eff_scope with eff.
Notation "x <- m ;; k" := (bind m (fun x => k))
  (at level 61, m at next level, right associativity) : eff_scope.
Notation "m ;;; k" := (bind m (fun _ => k))
  (at level 61, right associativity) : eff_scope.
Open Scope eff_scope.

(** ** Data model (the rows of the three tables) *)

Module User.
Record t : Type := mk {
  id : string;
  email : string;
  password : string;
  role : string;            (* a [Role] enum value, a string at run time *)
  isEmailVerified : bool
}.
End User.

Module Session.
Record t : Type := mk {
  id : string;
  userId : string;
  expiresAt : Z
}.
End Session.

Inductive TokenType : Type := RESET_PASSWORD | VERIFY_EMAIL.

Definition TokenType_eqb (a b : TokenType) : bool :=
  match a, b with
  | RESET_PASSWORD, RESET_PASSWORD => true
  | VERIFY_EMAIL, VERIFY_EMAIL => true
  | _, _ => false
  end.

Module Token.
(** The columns written by [saveToken]. *)
Record t : Type := mk {
  token : string;
  userId : string;
  expires : Z;
  type : TokenType;
  blacklisted : bool
}.
End Token.

(** [SessionValidationResult]: an object with two nullable fields. *)
Record SessionValidationResult : Type := mkResult {
  session : option Session.t;
  user : option User.t
}.

(** ** Collaborators

    What the services import and do not define: the encoding and digest
    library, the clock, the ORM client, the user service, the logger and
    the role table. *)

Class Collaborators (W : Type) : Type := {
  TextEncoder_encode : string -> list Byte.byte;
  sha256 : list Byte.byte -> list Byte.byte;
  encodeHexLowerCase : list Byte.byte -> string;
  Date_now : M W Z;
  (* prisma.session *)
  session_create : Session.t -> M W Session.t;
  session_findUnique_include_user : string -> M W (option (Session.t * User.t));
  session_delete : string -> M W Session.t;
  session_update : string -> Z -> M W Session.t;
  (* prisma.token *)
  token_create : Token.t -> M W Token.t;
  token_findFirst : string -> TokenType -> bool -> M W (option Token.t);
  token_deleteMany : string -> TokenType -> M W nat;
  (* userService *)
  getUserById : string -> M W (option User.t);
  updateUserById_password : string -> string -> M W User.t;
  (* logger.error: a side effect only *)
  logger_error : exn -> W -> W;
  (* roleRights.get *)
  roleRights_get : string -> option (list string)
}.

Definition days (n : Z) : Z := 1000 * 60 * 60 * 24 * n.

(** ** token.service.ts *)

Section TokenService.
Context {W : Type} `{C : Collaborators W}.

(** [encoding.encodeHexLowerCase(sha256(new TextEncoder().encode(token)))] *)
Definition hashToken (token : string) : string :=
  encodeHexLowerCase (sha256 (TextEncoder_encode token)).

Definition createSession (token userId : string) (expiresAt : option Z)
  : M W Session.t :=
  let sessionId := hashToken token in
  exp <- match expiresAt with
         | Some e => ret e
         | None => now <- Date_now ;; ret (now + days 30)
         end ;;
  let session := Session.mk sessionId userId exp in
  session_create session ;;;
  ret session.

Definition validateSessionToken (token : string)
  : M W SessionValidationResult :=
  let sessionId := hashToken token in
  result <- session_findUnique_include_user sessionId ;;
  match result with
  | None => ret (mkResult None None)
  | Some (session, user) =>
      now1 <- Date_now ;;
      if now1 >=? Session.expiresAt session then
        session_delete sessionId ;;;
        ret (mkResult None None)
      else
        now2 <- Date_now ;;
        session' <-
          (if now2 >=? Session.expiresAt session - days 15 then
             now3 <- Date_now ;;
             let renewed :=
               Session.mk (Session.id session) (Session.userId session)
                          (now3 + days 30) in
             session_update (Session.id renewed) (Session.expiresAt renewed) ;;;
             ret renewed
           else ret session) ;;
        ret (mkResult (Some session') (Some user))
  end.

Definition invalidateSession (token : string) : M W unit :=
  let sessionId := hashToken token in
  session_delete sessionId ;;;
  ret tt.

Definition saveToken (token userId : string) (expires : Z)
           (type : TokenType) (blacklisted : bool) : M W Token.t :=
  let hashedToken := hashToken token in
  createdToken <- token_create
                    (Token.mk hashedToken userId expires type blacklisted) ;;
  ret createdToken.

Definition verifyToken (token : string) (type : TokenType)
           (blacklisted : bool) : M W Token.t :=
  let hashedToken := hashToken token in
  tokenData <- token_findFirst hashedToken type blacklisted ;;
  match tokenData with
  | None => throw (Error "Token not found")
  | Some t => ret t
  end.

End TokenService.

Arguments hashToken : simpl never.

(** ** auth.service.ts *)

Section AuthService.
Context {W : Type} `{C : Collaborators W}.

Definition UNAUTHORIZED : Z := 401.
Definition FORBIDDEN : Z := 403.

(** The body of the [try] block of [resetPassword]. *)
Definition resetPassword_try (resetPasswordToken newPassword : string)
  : M W unit :=
  resetPasswordTokenData <- verifyToken resetPasswordToken RESET_PASSWORD false ;;
  user <- getUserById (Token.userId resetPasswordTokenData) ;;
  match user with
  | None => throw (Error "")
  | Some user =>
      updateUserById_password (User.id user) newPassword ;;;
      token_deleteMany (User.id user) RESET_PASSWORD ;;;
      ret tt
  end.

Definition resetPassword (resetPasswordToken newPassword : string)
  : M W unit :=
  try_catch (resetPassword_try resetPasswordToken newPassword)
    (fun error w =>
       throw (ApiError UNAUTHORIZED "Password reset failed")
             (logger_error error w)).

End AuthService.

(** ** middlewares/auth.ts *)

(** [s.split(" ")] *)
Fixpoint split_space (s : string) : list string :=
  match s with
  | EmptyString => [EmptyString]
  | String c rest =>
      if Ascii.eqb c " "%char then EmptyString :: split_space rest
      else match split_space rest with
           | [] => [String c EmptyString]
           | h :: t => String c h :: t
           end
  end.

(** The parts of the request the middleware reads. *)
Record Request : Type := mkRequest {
  headers_authorization : option string;
  params_userId : option string
}.

(** What the middleware does with [next]: it calls [next()] after setting
    [req.user], it calls [next(err)], or the promise built around the
    asynchronous executor never settles because the executor itself threw. *)
Inductive NextCall : Type :=
| Next (req_user : User.t)
| NextErr (err : exn)
| Pending.

Definition option_string_eqb (a : option string) (b : string) : bool :=
  match a with
  | Some x => String.eqb x b
  | None => false
  end.

Section AuthMiddleware.
Context {W : Type} `{C : Collaborators W}.

(** [req.headers.authorization?.split(" ")[1] as string]; an [undefined]
    token is encoded by [TextEncoder.encode] as the empty string. *)
Definition bearer (req : Request) : string :=
  match headers_authorization req with
  | None => ""
  | Some h => nth 1 (split_space h) ""
  end.

(** [roleRights.get(role) ?? []]: the rights the role table grants. *)
Definition granted (role : string) : list string :=
  match roleRights_get role with
  | Some rights => rights
  | None => []
  end.

Definition hasRequiredRights (requiredRights : list string) (role : string)
  : bool :=
  let userRights := granted role in
  forallb (fun requiredRight => existsb (String.eqb requiredRight) userRights)
          requiredRights.

Definition auth (requiredRights : list string) (req : Request)
  : W -> NextCall * W :=
  fun w =>
    match validateSessionToken (bearer req) w with
    | (Thrown _, w') => (Pending, w')
    | (Returned r, w') =>
        match session r with
        | None => (NextErr (ApiError UNAUTHORIZED "Please authenticate"), w')
        | Some _ =>
            match user r with
            | None => (Pending, w')
            | Some user =>
                match requiredRights with
                | [] => (Next user, w')
                | _ :: _ =>
                    if negb (hasRequiredRights requiredRights (User.role user))
                       && negb (option_string_eqb (params_userId req)
                                                  (User.id user))
                    then (NextErr (ApiError FORBIDDEN "Forbidden"), w')
                    else (Next user, w')
                end
            end
        end
    end.

End AuthMiddleware.

(** ** The store and the clock

    The persistence engine, the user service and the clock are outside the
    services.  They are modelled here as three tables of rows, a clock that
    is read one reading at a time, and the log of the logger. *)

Record Store : Type := mkStore {
  users : list User.t;
  sessions : list Session.t;
  tokens : list Token.t
}.

Record World : Type := mkWorld {
  store : Store;
  clock : nat -> Z;      (* the successive readings of [Date.now()] *)
  reads : nat;           (* how many readings were taken so far *)
  logged : list exn
}.

Definition with_store (w : World) (st : Store) : World :=
  mkWorld st (clock w) (reads w) (logged w).

Definition with_sessions (w : World) (l : list Session.t) : World :=
  with_store w (mkStore (users (store w)) l (tokens (store w))).

Definition with_tokens (w : World) (l : list Token.t) : World :=
  with_store w (mkStore (users (store w)) (sessions (store w)) l).

Definition with_users (w : World) (l : list User.t) : World :=
  with_store w (mkStore l (sessions (store w)) (tokens (store w))).

(** The next reading of the clock in [w]. *)
Definition now (w : World) : Z := clock w (reads w).

Definition tick (w : World) : World :=
  mkWorld (store w) (clock w) (S (reads w)) (logged w).

Definition has_session_id (i : string) (s : Session.t) : bool :=
  String.eqb (Session.id s) i.

Definition has_user_id (i : string) (u : User.t) : bool :=
  String.eqb (User.id u) i.

Definition has_token (hashed : string) (t : Token.t) : bool :=
  String.eqb (Token.token t) hashed.

(** [where: { token: hashedToken, type, blacklisted }] *)
Definition token_where (hashed : string) (ty : TokenType) (bl : bool)
           (t : Token.t) : bool :=
  has_token hashed t
  && TokenType_eqb (Token.type t) ty
  && Bool.eqb (Token.blacklisted t) bl.

(** [where: { userId, type }] *)
Definition owned_where (uid : string) (ty : TokenType) (t : Token.t) : bool :=
  String.eqb (Token.userId t) uid && TokenType_eqb (Token.type t) ty.

Definition set_expiresAt (e : Z) (s : Session.t) : Session.t :=
  Session.mk (Session.id s) (Session.userId s) e.

Definition set_password (p : string) (u : User.t) : User.t :=
  User.mk (User.id u) (User.email u) p (User.role u) (User.isEmailVerified u).

(** Modelled from the spec: [Date.now()], one reading of the clock. *)
Definition mem_Date_now : M World Z :=
  fun w => (Returned (now w), tick w).

(** Modelled from the spec: the persistence engine's [put] of a session,
    which fails when the id already exists; the row refers to its user by a
    foreign key. *)
Definition mem_session_create (s : Session.t) : M World Session.t :=
  fun w =>
    if existsb (has_session_id (Session.id s)) (sessions (store w))
    then (Thrown (StoreError "P2002"), w)
    else if existsb (has_user_id (Session.userId s)) (users (store w))
    then (Returned s, with_sessions w (sessions (store w) ++ [s]))
    else (Thrown (StoreError "P2003"), w).

(** Modelled from the spec: [getById] of a session, joined with its owning
    user. *)
Definition mem_session_findUnique_include_user (i : string)
  : M World (option (Session.t * User.t)) :=
  fun w =>
    match find (has_session_id i) (sessions (store w)) with
    | None => (Returned None, w)
    | Some s =>
        match find (has_user_id (Session.userId s)) (users (store w)) with
        | Some u => (Returned (Some (s, u)), w)
        | None => (Thrown (StoreError "inconsistent"), w)
        end
    end.

(** Modelled from the spec: [deleteById]; the caller expects the row to
    exist, an absent row is an error. *)
Definition mem_session_delete (i : string) : M World Session.t :=
  fun w =>
    match find (has_session_id i) (sessions (store w)) with
    | None => (Thrown (StoreError "P2025"), w)
    | Some s =>
        (Returned s,
         with_sessions w
           (filter (fun x => negb (has_session_id i x)) (sessions (store w))))
    end.

(** Modelled from the spec: [updateExpiry], an update in place of the
    expiry only. *)
Definition mem_session_update (i : string) (e : Z) : M World Session.t :=
  fun w =>
    match find (has_session_id i) (sessions (store w)) with
    | None => (Thrown (StoreError "P2025"), w)
    | Some s =>
        (Returned (set_expiresAt e s),
         with_sessions w
           (map (fun x => if has_session_id i x then set_expiresAt e x else x)
                (sessions (store w))))
    end.

(** Modelled from the spec: [put] of a purpose token, unique on its hashed
    id and owned by an existing user. *)
Definition mem_token_create (t : Token.t) : M World Token.t :=
  fun w =>
    if existsb (has_token (Token.token t)) (tokens (store w))
    then (Thrown (StoreError "P2002"), w)
    else if existsb (has_user_id (Token.userId t)) (users (store w))
    then (Returned t, with_tokens w (tokens (store w) ++ [t]))
    else (Thrown (StoreError "P2003"), w).

(** Modelled from the spec: [findByPurpose], the first match. *)
Definition mem_token_findFirst (hashed : string) (ty : TokenType) (bl : bool)
  : M World (option Token.t) :=
  fun w => (Returned (find (token_where hashed ty bl) (tokens (store w))), w).

(** Modelled from the spec: [deleteAllByUserAndPurpose]. *)
Definition mem_token_deleteMany (uid : string) (ty : TokenType)
  : M World nat :=
  fun w =>
    (Returned (length (filter (owned_where uid ty) (tokens (store w)))),
     with_tokens w
       (filter (fun t => negb (owned_where uid ty t)) (tokens (store w)))).

(** Modelled from the spec: the user-lookup collaborator's [getById]. *)
Definition mem_getUserById (i : string) : M World (option User.t) :=
  fun w => (Returned (find (has_user_id i) (users (store w))), w).

Definition NOT_FOUND : Z := 404.

(** The pure functions the store and the services take from outside: the
    text encoder, the digest and the hex encoding of the encoding library,
    the password function, and the role table of [config/roles]. *)
Class Externals : Type := {
  ext_encode : string -> list Byte.byte;
  ext_sha256 : list Byte.byte -> list Byte.byte;
  ext_encodeHexLowerCase : list Byte.byte -> string;
  encryptPassword : string -> string;
  roleRights : string -> option (list string)
}.

(** Modelled from the spec: the user-lookup collaborator's [updateById]
    with a new password, stored through the opaque one-way function
    [encryptPassword]. *)
Definition mem_updateUserById_password `{Externals}
           (i newPassword : string) : M World User.t :=
  fun w =>
    match find (has_user_id i) (users (store w)) with
    | None => (Thrown (ApiError NOT_FOUND "User not found"), w)
    | Some u =>
        let p := encryptPassword newPassword in
        (Returned (set_password p u),
         with_users w
           (map (fun x => if has_user_id i x then set_password p x else x)
                (users (store w))))
    end.

Definition mem_logger_error (e : exn) (w : World) : World :=
  mkWorld (store w) (clock w) (reads w) (logged w ++ [e]).

(** The collaborators over the modelled store. *)
#[export] Instance memory `{Externals} : Collaborators World := {|
  TextEncoder_encode := ext_encode;
  sha256 := ext_sha256;
  encodeHexLowerCase := ext_encodeHexLowerCase;
  Date_now := mem_Date_now;
  session_create := mem_session_create;
  session_findUnique_include_user := mem_session_findUnique_include_user;
  session_delete := mem_session_delete;
  session_update := mem_session_update;
  token_create := mem_token_create;
  token_findFirst := mem_token_findFirst;
  token_deleteMany := mem_token_deleteMany;
  getUserById := mem_getUserById;
  updateUserById_password := mem_updateUserById_password;
  logger_error := mem_logger_error;
  roleRights_get := roleRights
|}.

(** ** Store invariants: what the uniqueness constraints and the foreign
    keys of the schema guarantee of every state of the store *)

Definition unique_session_ids (st : Store) : Prop :=
  NoDup (map Session.id (sessions st)).

Definition unique_token_ids (st : Store) : Prop :=
  NoDup (map Token.token (tokens st)).

Definition sessions_owned (st : Store) : Prop :=
  forall s, In s (sessions st) ->
            existsb (has_user_id (Session.userId s)) (users st) = true.

Definition store_ok (st : Store) : Prop :=
  unique_session_ids st /\ unique_token_ids st /\ sessions_owned st.

(** A computation keeps the invariants of the store. *)
Definition preserves {A : Type} (m : M World A) : Prop :=
  forall w r w', m w = (r, w') -> store_ok (store w) -> store_ok (store w').

(** The calls the services offer to the rest of the program. *)
Inductive service_call `{Externals} : forall A, M World A -> Prop :=
| call_createSession token userId e :
    service_call _ (createSession token userId e)
| call_validateSessionToken token :
    service_call _ (validateSessionToken token)
| call_invalidateSession token :
    service_call _ (invalidateSession token)
| call_saveToken token userId e ty bl :
    service_call _ (saveToken token userId e ty bl)
| call_verifyToken token ty bl :
    service_call _ (verifyToken token ty bl)
| call_resetPassword token newPassword :
    service_call _ (resetPassword token newPassword).

(** The worlds reached from a store with users and no sessions or tokens
    by calls of the services, at any clock. *)
Inductive reachable `{Externals} : World -> Prop :=
| reach_start us c n l : reachable (mkWorld (mkStore us [] []) c n l)
| reach_call A (m : M World A) w r w' :
    reachable w -> service_call A m -> m w = (r, w') -> reachable w'.

(** A store used by the examples: a toy digest that tags the token, so
    that the stored identifier visibly differs from the raw token. *)
Definition toy : Externals := {|
  ext_encode := list_byte_of_string;
  ext_sha256 := fun bytes => bytes;
  ext_encodeHexLowerCase := fun bytes => "h:" ++ string_of_list_byte bytes;
  encryptPassword := fun p => "bcrypt:" ++ p;
  roleRights := fun r =>
    if String.eqb r "USER" then Some []
    else if String.eqb r "ADMIN" then Some ["getUsers"; "manageUsers"]
    else None
|}.

Definition alice : User.t := User.mk "u1" "alice@example.com" "pw" "USER" false.
Definition bob : User.t := User.mk "u2" "bob@example.com" "pw" "ADMIN" false.

(** The clock of the examples reads 1000, 1001, 1002, ... *)
Definition clock0 (n : nat) : Z := 1000 + Z.of_nat n.

Definition world0 : World := mkWorld (mkStore [alice; bob] [] []) clock0 0 [].

(** The session [createSession "tok" "u1"] stores in [world0], and the
    world it leaves. *)
Definition session1 : Session.t := Session.mk "h:tok" "u1" (1000 + days 30).

Definition world1 : World :=
  mkWorld (mkStore [alice; bob] [session1] []) clock0 1 [].

(** A world with an expired session of alice and a session of bob that
    expires in ten days. *)
Definition session_old : Session.t := Session.mk "h:old" "u1" 500.
Definition session_soon : Session.t := Session.mk "h:soon" "u2" (1000 + days 10).

Definition world_sessions : World :=
  mkWorld (mkStore [alice; bob] [session_old; session_soon; session1] [])
          clock0 0 [].

(** A world with purpose tokens: an expired reset token of alice, a
    blacklisted one, a reset token of bob and a verification token of
    alice. *)
Definition token_reset : Token.t :=
  Token.mk "h:reset" "u1" 500 RESET_PASSWORD false.
Definition token_black : Token.t :=
  Token.mk "h:black" "u1" 700000 RESET_PASSWORD true.
Definition token_bob : Token.t :=
  Token.mk "h:bob" "u2" 700000 RESET_PASSWORD false.
Definition token_verify : Token.t :=
  Token.mk "h:verify" "u1" 700000 VERIFY_EMAIL false.

Definition world_tokens : World :=
  mkWorld (mkStore [alice; bob] [session1]
                   [token_reset; token_black; token_bob; token_verify])
          clock0 1 [].

(** [world_tokens] after [resetPassword "reset" "secret99"]. *)
Definition world_reset : World :=
  mkWorld (mkStore [set_password "bcrypt:secret99" alice; bob] [session1]
                   [token_bob; token_verify])
          clock0 1 [].

(** A request of alice on her own user route. *)
Definition request_own : Request :=
  mkRequest (Some "Bearer tok") (Some "u1").

(** A request of alice on bob's user route. *)
Definition request_other : Request :=
  mkRequest (Some "Bearer tok") (Some "u2").

(** * The rest of the services

    The functions of [token.service.ts] and [auth.service.ts] that issue
    tokens, log a user in and out and verify an email address, and the
    collaborators they add to the ones above. *)

(** [exclude(user, ["password"])]: the user without its password. *)
Module PublicUser.
Record t : Type := mk {
  id : string;
  email : string;
  role : string;
  isEmailVerified : bool
}.
End PublicUser.

Definition exclude_password (u : User.t) : PublicUser.t :=
  PublicUser.mk (User.id u) (User.email u) (User.role u)
                (User.isEmailVerified u).

(** The user service's lookup by email and update of the verified flag,
    and the password comparison of [utils/encryption]. *)
Class Directory (W : Type) : Type := {
  getUserByEmail : string -> M W (option User.t);
  isPasswordMatch : string -> string -> M W bool;
  updateUserById_isEmailVerified : string -> bool -> M W User.t
}.

(** [crypto.getRandomValues] on a fresh array of the given length, and the
    base-32 encoding of the encoding library. *)
Class Entropy (W : Type) : Type := {
  crypto_getRandomValues : nat -> M W (list Byte.byte);
  encodeBase32LowerCaseNoPadding : list Byte.byte -> string
}.

Definition minutes (n : Z) : Z := 1000 * 60 * n.

Section Issuing.
Context {W : Type} `{C : Collaborators W} `{D : Directory W} `{R : Entropy W}.

Definition generateSessionToken : M W string :=
  bytes <- crypto_getRandomValues 20 ;;
  let token := encodeBase32LowerCaseNoPadding bytes in
  ret token.

(** [expires] is [None] when the caller leaves the default,
    [moment().add(10, "minutes")], to be computed; the callers that leave
    [blacklisted] out pass [false]. *)
Definition generateResetPasswordToken (email : string) (expires : option Z)
           (blacklisted : bool) : M W string :=
  expires <- match expires with
             | Some e => ret e
             | None => now <- Date_now ;; ret (now + minutes 10)
             end ;;
  user <- getUserByEmail email ;;
  match user with
  | None => throw (ApiError 404 "No users found with this email")
  | Some user =>
      resetPasswordToken <- generateSessionToken ;;
      saveToken resetPasswordToken (User.id user) expires RESET_PASSWORD
                blacklisted ;;;
      ret resetPasswordToken
  end.

Definition generateVerifyEmailToken (user_id : string) : M W string :=
  now <- Date_now ;;
  let expires := now + minutes 10 in
  verifyEmailToken <- generateSessionToken ;;
  saveToken verifyEmailToken user_id expires VERIFY_EMAIL false ;;;
  ret verifyEmailToken.

Definition loginUserWithEmailAndPassword (email password : string)
  : M W PublicUser.t :=
  user <- getUserByEmail email ;;
  match user with
  | None => throw (ApiError UNAUTHORIZED "Incorrect email or password")
  | Some user =>
      matches <- isPasswordMatch password (User.password user) ;;
      if matches then ret (exclude_password user)
      else throw (ApiError UNAUTHORIZED "Incorrect email or password")
  end.

Definition logout (sessionToken : string) : M W unit :=
  invalidateSession sessionToken.

(** The body of the [try] block of [verifyEmail]. *)
Definition verifyEmail_try (verifyEmailToken : string) : M W unit :=
  verifyEmailTokenData <- verifyToken verifyEmailToken VERIFY_EMAIL false ;;
  token_deleteMany (Token.userId verifyEmailTokenData) VERIFY_EMAIL ;;;
  updateUserById_isEmailVerified (Token.userId verifyEmailTokenData) true ;;;
  ret tt.

Definition verifyEmail (verifyEmailToken : string) : M W unit :=
  try_catch (verifyEmail_try verifyEmailToken)
    (fun _ => throw (ApiError UNAUTHORIZED "Email verification failed")).

End Issuing.

(** ** utils/catchAsync.ts and the login controller *)

(** What a controller sends: [res.status(s).send(b)]. *)
Inductive Body : Type :=
| NoBody
| UserAndToken (user : PublicUser.t) (token : string).

Record Response : Type := mkResponse {
  status : Z;
  body : Body
}.

(** How a wrapped controller ends: it has sent its response, or the error
    it threw went to [next]. *)
Inductive Handled : Type :=
| Sent (res : Response)
| NextCalled (err : exn).

(** [Promise.resolve(fn(req, res, next)).catch((err) => next(err))] *)
Definition catchAsync {W Req : Type} (fn : Req -> M W Response) (req : Req)
  : W -> Handled * W :=
  fun w =>
    match fn req w with
    | (Returned res, w') => (Sent res, w')
    | (Thrown err, w') => (NextCalled err, w')
    end.

(** [req.body] of the login route. *)
Record LoginBody : Type := mkLoginBody {
  body_email : string;
  body_password : string
}.

Definition OK : Z := 200.

Section Controllers.
Context {W : Type} `{C : Collaborators W} `{D : Directory W} `{R : Entropy W}.

Definition login : LoginBody -> W -> Handled * W :=
  catchAsync (fun req =>
    let email := body_email req in
    let password := body_password req in
    user <- loginUserWithEmailAndPassword email password ;;
    token <- generateSessionToken ;;
    createSession token (PublicUser.id user) None ;;;
    ret (mkResponse OK (UserAndToken user token))).

End Controllers.

(** ** The rest of the store: lookup by email, the verified flag, and a
    source of random bytes *)

Definition has_email (e : string) (u : User.t) : bool :=
  String.eqb (User.email u) e.

Definition set_isEmailVerified (b : bool) (u : User.t) : User.t :=
  User.mk (User.id u) (User.email u) (User.password u) (User.role u) b.

(** Modelled from the spec: the user-lookup collaborator's [getByEmail]. *)
Definition mem_getUserByEmail (e : string) : M World (option User.t) :=
  fun w => (Returned (find (has_email e) (users (store w))), w).

(** Modelled from the spec: the user-lookup collaborator's [updateById]
    with a new value of the verified flag. *)
Definition mem_updateUserById_isEmailVerified (i : string) (b : bool)
  : M World User.t :=
  fun w =>
    match find (has_user_id i) (users (store w)) with
    | None => (Thrown (ApiError NOT_FOUND "User not found"), w)
    | Some u =>
        (Returned (set_isEmailVerified b u),
         with_users w
           (map (fun x => if has_user_id i x then set_isEmailVerified b x
                          else x)
                (users (store w))))
    end.

(** The pure functions the rest of the services take from outside: the
    comparison of a password with a stored one, and the base-32 encoding. *)
Class MoreExternals : Type := {
  ext_isPasswordMatch : string -> string -> bool;
  ext_encodeBase32LowerCaseNoPadding : list Byte.byte -> string
}.

#[export] Instance mem_directory `{MoreExternals} : Directory World := {|
  getUserByEmail := mem_getUserByEmail;
  isPasswordMatch := fun password userPassword =>
                       ret (ext_isPasswordMatch password userPassword);
  updateUserById_isEmailVerified := mem_updateUserById_isEmailVerified
|}.

(** The world with a source of random bytes: the successive draws, and how
    many were taken. *)
Record Runtime : Type := mkRuntime {
  world : World;
  entropy : nat -> nat -> Byte.byte;   (* the bytes of each draw *)
  draws : nat
}.

Definition with_world (r : Runtime) (w : World) : Runtime :=
  mkRuntime w (entropy r) (draws r).

(** A computation on the world, run in the world of a runtime. *)
Definition lift {A : Type} (m : M World A) : M Runtime A :=
  fun r => let (o, w') := m (world r) in (o, with_world r w').

(** The first [n] bytes of the next draw. *)
Definition drawn (r : Runtime) (n : nat) : list Byte.byte :=
  map (entropy r (draws r)) (seq 0 n).

Arguments drawn : simpl never.

(** Modelled from the spec: a cryptographically secure random source; the
    next draw fills the array. *)
Definition draw_bytes (n : nat) : M Runtime (list Byte.byte) :=
  fun r =>
    (Returned (drawn r n), mkRuntime (world r) (entropy r) (S (draws r))).

Definition runtime `{Externals} : Collaborators Runtime := {|
  TextEncoder_encode := ext_encode;
  sha256 := ext_sha256;
  encodeHexLowerCase := ext_encodeHexLowerCase;
  Date_now := lift mem_Date_now;
  session_create := fun s => lift (mem_session_create s);
  session_findUnique_include_user :=
    fun i => lift (mem_session_findUnique_include_user i);
  session_delete := fun i => lift (mem_session_delete i);
  session_update := fun i e => lift (mem_session_update i e);
  token_create := fun t => lift (mem_token_create t);
  token_findFirst := fun h ty bl => lift (mem_token_findFirst h ty bl);
  token_deleteMany := fun u ty => lift (mem_token_deleteMany u ty);
  getUserById := fun i => lift (mem_getUserById i);
  updateUserById_password := fun i p => lift (mem_updateUserById_password i p);
  logger_error := fun e r => with_world r (mem_logger_error e (world r));
  roleRights_get := roleRights
|}.

Definition runtime_directory `{MoreExternals} : Directory Runtime := {|
  getUserByEmail := fun e => lift (mem_getUserByEmail e);
  isPasswordMatch := fun password userPassword =>
                       ret (ext_isPasswordMatch password userPassword);
  updateUserById_isEmailVerified :=
    fun i b => lift (mem_updateUserById_isEmailVerified i b)
|}.

Definition runtime_entropy `{MoreExternals} : Entropy Runtime := {|
  crypto_getRandomValues := draw_bytes;
  encodeBase32LowerCaseNoPadding := ext_encodeBase32LowerCaseNoPadding
|}.

(** The rest of the toy functions of the examples: a stored password
    matches when it is the tagged password, and the base-32 encoding is a
    tagged copy of the bytes. *)
Definition toy2 : MoreExternals := {|
  ext_isPasswordMatch := fun p stored => String.eqb ("bcrypt:" ++ p) stored;
  ext_encodeBase32LowerCaseNoPadding :=
    fun bytes => "t" ++ string_of_list_byte bytes
|}.

Definition carol : User.t :=
  User.mk "u3" "carol@example.com" "bcrypt:secret99" "USER" false.

(** A world with a stale verification token of bob. *)
Definition token_stale : Token.t :=
  Token.mk "h:stale" "u2" 500 VERIFY_EMAIL false.

Definition world_mail : World :=
  mkWorld (mkStore [alice; bob] [session1] [token_stale; token_bob])
          clock0 1 [].

(** A token saved in [world_tokens]. *)
Definition token_fresh : Token.t :=
  Token.mk "h:fresh" "u2" 5000 VERIFY_EMAIL false.

(** A runtime whose draws are all the byte [a]. *)
Definition runtime0 : Runtime :=
  mkRuntime (mkWorld (mkStore [alice; bob; carol] [] []) clock0 0 [])
            (fun _ _ => Byte.x61) 0.

Definition token0 : string := "taaaaaaaaaaaaaaaaaaaa".

(** [runtime0] after a reset token was issued to alice at the default
    expiry. *)
Definition runtime_reset : Runtime :=
  mkRuntime
    (mkWorld (mkStore [alice; bob; carol] []
                      [Token.mk "h:taaaaaaaaaaaaaaaaaaaa" "u1"
                                (1000 + minutes 10) RESET_PASSWORD false])
             clock0 1 [])
    (fun _ _ => Byte.x61) 1.

(** [runtime0] after a verification token was issued to bob. *)
Definition runtime_verify : Runtime :=
  mkRuntime
    (mkWorld (mkStore [alice; bob; carol] []
                      [Token.mk "h:taaaaaaaaaaaaaaaaaaaa" "u2"
                                (1000 + minutes 10) VERIFY_EMAIL false])
             clock0 1 [])
    (fun _ _ => Byte.x61) 1.

(** [runtime0] after carol logged in. *)
Definition runtime_login : Runtime :=
  mkRuntime
    (mkWorld (mkStore [alice; bob; carol]
                      [Session.mk "h:taaaaaaaaaaaaaaaaaaaa" "u3"
                                  (1000 + days 30)]
                      [])
             clock0 1 [])
    (fun _ _ => Byte.x61) 1.

(** A world with a session for a user of each kind of role: alice, whose
    role grants nothing, bob, whose role grants rights, and dave, whose
    role is not in the table. *)
Definition dave : User.t := User.mk "u4" "dave@example.com" "pw" "GUEST" false.

Definition session_bob : Session.t :=
  Session.mk "h:bobtok" "u2" (1000 + days 30).
Definition session_dave : Session.t :=
  Session.mk "h:davetok" "u4" (1000 + days 30).

Definition world_roles : World :=
  mkWorld (mkStore [alice; bob; dave] [session1; session_bob; session_dave] [])
          clock0 1 [].

(** Whether a string holds a space, the separator of the authorization
    header. *)
Fixpoint has_space (s : string) : bool :=
  match s with
  | EmptyString => false
  | String c rest => Ascii.eqb c " "%char || has_space rest
  end.

(** * Lists of rows *)

Section Rows.
Variable A : Type.
Variable key : A -> string.

Definition has_key (k : string) (x : A) : bool := String.eqb (key x) k.

Lemma existsb_false_find (p : A -> bool) (l : list A) :
  existsb p l = false -> find p l = None.
Proof.
  induction l as [|x l IH]; simpl; [reflexivity|].
  destruct (p x); simpl; [discriminate|exact IH].
Qed.

Lemma find_existsb (p : A -> bool) (l : list A) (x : A) :
  find p l = Some x -> existsb p l = true.
Proof.
  induction l as [|y l IH]; simpl; [discriminate|].
  destruct (p y); simpl; auto.
Qed.

Lemma existsb_true_find (p : A -> bool) (l : list A) :
  existsb p l = true -> exists x, find p l = Some x.
Proof.
  induction l as [|y l IH]; simpl; [discriminate|].
  destruct (p y); simpl; eauto.
Qed.

Lemma find_app_new (p : A -> bool) (l : list A) (x : A) :
  existsb p l = false -> p x = true -> find p (l ++ [x]) = Some x.
Proof.
  induction l as [|y l IH]; simpl; intros Hl Hx.
  - now rewrite Hx.
  - destruct (p y); simpl in *; [discriminate|auto].
Qed.

Lemma find_filter_out (p : A -> bool) (l : list A) :
  find p (filter (fun x => negb (p x)) l) = None.
Proof.
  induction l as [|y l IH]; simpl; [reflexivity|].
  destruct (p y) eqn:E; simpl; [exact IH|].
  now rewrite E.
Qed.

Lemma key_unique (l : list A) (x y : A) :
  NoDup (map key l) -> In x l -> In y l -> key x = key y -> x = y.
Proof.
  induction l as [|z l IH]; simpl; [tauto|].
  intros Hnd Hx Hy Hk. inversion Hnd as [|? ? Hnot Hnd']; subst.
  destruct Hx as [->|Hx], Hy as [->|Hy]; auto.
  - exfalso. apply Hnot. rewrite Hk. now apply in_map.
  - exfalso. apply Hnot. rewrite <- Hk. now apply in_map.
Qed.

Lemma find_by_key (l : list A) (x : A) :
  NoDup (map key l) -> In x l -> find (has_key (key x)) l = Some x.
Proof.
  intros Hnd Hin.
  destruct (find (has_key (key x)) l) as [y|] eqn:E.
  - apply find_some in E. destruct E as [Hy Hk].
    unfold has_key in Hk. apply String.eqb_eq in Hk.
    f_equal. now apply (key_unique l).
  - exfalso. apply (find_none _ _ E) in Hin.
    unfold has_key in Hin. now rewrite String.eqb_refl in Hin.
Qed.

Lemma find_map_update (l : list A) (k : string) (f : A -> A) (x : A) :
  (forall y, key (f y) = key y) ->
  find (has_key k) l = Some x ->
  find (has_key k) (map (fun y => if has_key k y then f y else y) l)
  = Some (f x).
Proof.
  intros Hf. induction l as [|y l IH]; simpl; [discriminate|].
  destruct (has_key k y) eqn:E; simpl.
  - intros [= ->]. unfold has_key in *. now rewrite Hf, E.
  - rewrite E. exact IH.
Qed.

Lemma map_key_update (l : list A) (k : string) (f : A -> A) :
  (forall y, key (f y) = key y) ->
  map key (map (fun y => if has_key k y then f y else y) l) = map key l.
Proof.
  intros Hf. induction l as [|y l IH]; simpl; [reflexivity|].
  rewrite IH. destruct (has_key k y); now rewrite ?Hf.
Qed.

Lemma NoDup_map_filter (p : A -> bool) (l : list A) :
  NoDup (map key l) -> NoDup (map key (filter p l)).
Proof.
  induction l as [|y l IH]; simpl; [auto|].
  intros Hnd. inversion Hnd as [|? ? Hnot Hnd']; subst.
  destruct (p y); simpl; auto.
  constructor; auto.
  intros Hin. apply Hnot. apply in_map_iff in Hin.
  destruct Hin as [z [Hz Hin]]. apply filter_In in Hin.
  rewrite <- Hz. apply in_map. tauto.
Qed.

Lemma NoDup_map_app_new (l : list A) (x : A) :
  NoDup (map key l) -> existsb (has_key (key x)) l = false ->
  NoDup (map key (l ++ [x])).
Proof.
  intros Hnd Hx. rewrite map_app. simpl.
  induction l as [|y l IH]; simpl in *.
  - constructor; [tauto|constructor].
  - inversion Hnd as [|? ? Hnot Hnd']; subst.
    apply orb_false_iff in Hx. destruct Hx as [Hy Hx].
    constructor; auto.
    rewrite in_app_iff. simpl. intros [Hin|[Hin|[]]]; [tauto|].
    unfold has_key in Hy. rewrite Hin, String.eqb_refl in Hy. discriminate.
Qed.

End Rows.

(** * The services over any collaborators *)

Section AnyCollaborators.
Context {W : Type} `{C : Collaborators W}.

Lemma bind_returned {A B} (m : M W A) (k : A -> M W B) (w w1 : W) (a : A) :
  m w = (Returned a, w1) -> bind m k w = k a w1.
Proof. unfold bind. now intros ->. Qed.

Lemma bind_thrown {A B} (m : M W A) (k : A -> M W B) (w w1 : W) (e : exn) :
  m w = (Thrown e, w1) -> bind m k w = (Thrown e, w1).
Proof. unfold bind. now intros ->. Qed.

Lemma try_catch_thrown {A} (m : M W A) (h : exn -> M W A) (w w1 : W) (e : exn) :
  m w = (Thrown e, w1) -> try_catch m h w = h e w1.
Proof. unfold try_catch. now intros ->. Qed.

(** C10. Whatever the collaborators do, a value returned by
    [validateSessionToken] has its session and its user both absent or
    both present. *)
Theorem validateSessionToken_shape (token : string) (w w' : W)
        (r : SessionValidationResult) :
  validateSessionToken token w = (Returned r, w') ->
  (session r = None /\ user r = None)
  \/ (exists s u, session r = Some s /\ user r = Some u).
Proof.
  unfold validateSessionToken, bind, ret.
  destruct (session_findUnique_include_user (hashToken token) w)
    as [[[[s u]|]|e] w1]; try discriminate.
  - destruct (Date_now w1) as [[t1|e] w2]; try discriminate.
    destruct (t1 >=? Session.expiresAt s).
    + destruct (session_delete (hashToken token) w2) as [[d|e] w3];
        try discriminate.
      intros [= <- _]. left. auto.
    + destruct (Date_now w2) as [[t2|e] w3]; try discriminate.
      destruct (t2 >=? Session.expiresAt s - days 15).
      * destruct (Date_now w3) as [[t3|e] w4]; try discriminate.
        destruct (session_update _ _ w4) as [[d|e] w5]; try discriminate.
        intros [= <- _]. right. simpl. eauto.
      * intros [= <- _]. right. simpl. eauto.
  - intros [= <- _]. left. auto.
Qed.

(** C9. Whichever step of the reset sequence fails (the token is not found,
    the owning user is absent, the password update throws, the deletion of
    the tokens throws), and whatever the collaborators throw,
    [resetPassword] throws the 401 'Password reset failed' error and
    nothing else. *)
Theorem resetPassword_uniform_failure (token newPassword : string) (w : W) :
  let failed := ApiError 401 "Password reset failed" in
  (forall e w1,
      verifyToken token RESET_PASSWORD false w = (Thrown e, w1) ->
      resetPassword token newPassword w = (Thrown failed, logger_error e w1))
  /\ (forall t w1 w2,
      verifyToken token RESET_PASSWORD false w = (Returned t, w1) ->
      getUserById (Token.userId t) w1 = (Returned None, w2) ->
      resetPassword token newPassword w
      = (Thrown failed, logger_error (Error "") w2))
  /\ (forall t w1 u w2 e w3,
      verifyToken token RESET_PASSWORD false w = (Returned t, w1) ->
      getUserById (Token.userId t) w1 = (Returned (Some u), w2) ->
      updateUserById_password (User.id u) newPassword w2 = (Thrown e, w3) ->
      resetPassword token newPassword w = (Thrown failed, logger_error e w3))
  /\ (forall t w1 u w2 u' w3 e w4,
      verifyToken token RESET_PASSWORD false w = (Returned t, w1) ->
      getUserById (Token.userId t) w1 = (Returned (Some u), w2) ->
      updateUserById_password (User.id u) newPassword w2 = (Returned u', w3) ->
      token_deleteMany (User.id u) RESET_PASSWORD w3 = (Thrown e, w4) ->
      resetPassword token newPassword w = (Thrown failed, logger_error e w4))
  /\ (forall e w',
      resetPassword token newPassword w = (Thrown e, w') -> e = failed).
Proof.
  intros failed. unfold resetPassword, resetPassword_try.
  repeat split.
  - intros e w1 Hv.
    erewrite try_catch_thrown; [reflexivity|].
    now apply bind_thrown.
  - intros t w1 w2 Hv Hu.
    erewrite try_catch_thrown; [reflexivity|].
    rewrite (bind_returned _ _ _ _ _ Hv).
    rewrite (bind_returned _ _ _ _ _ Hu). reflexivity.
  - intros t w1 u w2 e w3 Hv Hu Hp.
    erewrite try_catch_thrown; [reflexivity|].
    rewrite (bind_returned _ _ _ _ _ Hv).
    rewrite (bind_returned _ _ _ _ _ Hu).
    now apply bind_thrown.
  - intros t w1 u w2 u' w3 e w4 Hv Hu Hp Hd.
    erewrite try_catch_thrown; [reflexivity|].
    rewrite (bind_returned _ _ _ _ _ Hv).
    rewrite (bind_returned _ _ _ _ _ Hu).
    rewrite (bind_returned _ _ _ _ _ Hp).
    now apply bind_thrown.
  - intros e w'. unfold try_catch, throw.
    match goal with |- context [match ?m with _ => _ end] =>
      destruct m as [[[]|cause] w1] end.
    + discriminate.
    + now intros [= <- _].
Qed.

Lemma hasRequiredRights_spec (requiredRights : list string) (role : string) :
  hasRequiredRights requiredRights role = true
  <-> (forall r, In r requiredRights -> In r (granted role)).
Proof.
  unfold hasRequiredRights, granted.
  rewrite forallb_forall. split; intros Hall r Hr.
  - specialize (Hall r Hr). apply existsb_exists in Hall.
    destruct Hall as [x [Hx Heq]]. apply String.eqb_eq in Heq. now subst.
  - apply existsb_exists. exists r. split; [auto|apply String.eqb_refl].
Qed.

Lemma option_string_eqb_spec (a : option string) (b : string) :
  option_string_eqb a b = true <-> a = Some b.
Proof.
  destruct a as [x|]; simpl.
  - rewrite String.eqb_eq. split; [now intros ->|now intros [= ->]].
  - split; discriminate.
Qed.

(** C7. For an authenticated user and a non-empty list of required rights,
    the middleware lets the request through exactly when every required
    right is among the rights [roleRights.get] gives for the user's role
    (none for a role absent from the table) or the route's [userId]
    parameter is the user's own id; otherwise it answers 403 'Forbidden'.
    In particular a user whose role grants nothing passes with their own
    id and is refused with any other id or none. *)
Theorem auth_decision (requiredRights : list string) (req : Request)
        (w w' : W) (s : Session.t) (u : User.t) :
  requiredRights <> [] ->
  validateSessionToken (bearer req) w
  = (Returned (mkResult (Some s) (Some u)), w') ->
  let rights_of_role :=
    match roleRights_get (User.role u) with
    | Some rights => rights
    | None => []
    end in
  let allowed := auth requiredRights req w = (Next u, w') in
  let denied :=
    auth requiredRights req w = (NextErr (ApiError 403 "Forbidden"), w') in
  (allowed <->
   (forall r, In r requiredRights -> In r rights_of_role)
   \/ params_userId req = Some (User.id u))
  /\ (~ allowed <-> denied)
  /\ (rights_of_role = [] ->
      (params_userId req = Some (User.id u) -> allowed)
      /\ (params_userId req <> Some (User.id u) -> denied)).
Proof.
  intros Hne Hv rights_of_role allowed denied.
  assert (Hrights : rights_of_role = granted (User.role u)) by reflexivity.
  assert (Hauth : auth requiredRights req w
                  = (if negb (hasRequiredRights requiredRights (User.role u))
                        && negb (option_string_eqb (params_userId req)
                                                   (User.id u))
                     then NextErr (ApiError FORBIDDEN "Forbidden")
                     else Next u, w')).
  { unfold auth. rewrite Hv. simpl.
    destruct requiredRights; [congruence|].
    now destruct (_ && _). }
  assert (Hiff : allowed <->
                 (forall r, In r requiredRights -> In r rights_of_role)
                 \/ params_userId req = Some (User.id u)).
  { unfold allowed. rewrite Hauth, Hrights.
    rewrite <- hasRequiredRights_spec, <- option_string_eqb_spec.
    destruct (hasRequiredRights _ _), (option_string_eqb _ _); simpl;
      intuition congruence. }
  assert (Hden : ~ allowed <-> denied).
  { unfold allowed, denied. rewrite Hauth.
    destruct (_ && _); split; intros H;
      try reflexivity; try congruence; try (exfalso; now apply H). }
  split; [exact Hiff|]. split; [exact Hden|].
  intros Hnone. split.
  - intros Hown. apply Hiff. now right.
  - intros Hother. apply Hden. intros Hal. apply Hiff in Hal.
    destruct Hal as [Hall|Hown]; [|contradiction].
    destruct requiredRights as [|r rs]; [congruence|].
    specialize (Hall r (or_introl eq_refl)). now rewrite Hnone in Hall.
Qed.

End AnyCollaborators.

(** * The services over the modelled store *)

Section OverTheStore.
Context `{E : Externals}.

Lemma has_session_id_eq (i : string) (s : Session.t) :
  has_session_id i s = true <-> Session.id s = i.
Proof. unfold has_session_id. apply String.eqb_eq. Qed.

Lemma has_user_id_eq (i : string) (u : User.t) :
  has_user_id i u = true <-> User.id u = i.
Proof. unfold has_user_id. apply String.eqb_eq. Qed.

Lemma TokenType_eqb_eq (a b : TokenType) : TokenType_eqb a b = true <-> a = b.
Proof. destruct a, b; simpl; split; congruence. Qed.

Lemma token_where_eq (h : string) (ty : TokenType) (bl : bool) (t : Token.t) :
  token_where h ty bl t = true
  <-> Token.token t = h /\ Token.type t = ty /\ Token.blacklisted t = bl.
Proof.
  unfold token_where, has_token.
  rewrite !andb_true_iff, String.eqb_eq, TokenType_eqb_eq, Bool.eqb_true_iff.
  tauto.
Qed.

Lemma owned_where_eq (uid : string) (ty : TokenType) (t : Token.t) :
  owned_where uid ty t = true <-> Token.userId t = uid /\ Token.type t = ty.
Proof.
  unfold owned_where.
  now rewrite andb_true_iff, String.eqb_eq, TokenType_eqb_eq.
Qed.

(** A stored session is the one its id finds, and it has an owner. *)
Lemma stored_session_found (st : Store) (s : Session.t) :
  unique_session_ids st -> sessions_owned st -> In s (sessions st) ->
  find (has_session_id (Session.id s)) (sessions st) = Some s
  /\ exists u, find (has_user_id (Session.userId s)) (users st) = Some u
               /\ User.id u = Session.userId s.
Proof.
  intros Hu Ho Hin. split.
  - exact (find_by_key _ Session.id _ _ Hu Hin).
  - destruct (existsb_true_find _ _ _ (Ho s Hin)) as [u Hf].
    exists u. split; [exact Hf|].
    apply find_some in Hf. now apply has_user_id_eq.
Qed.

(** What [createSession] did when it returned. *)
Lemma createSession_returned (token userId : string) (expiresAt : option Z)
      (w w1 : World) (s : Session.t) :
  createSession token userId expiresAt w = (Returned s, w1) ->
  exists w0 e,
    ((expiresAt = Some e /\ w0 = w)
     \/ (expiresAt = None /\ e = now w + days 30 /\ w0 = tick w))
    /\ s = Session.mk (hashToken token) userId e
    /\ existsb (has_session_id (hashToken token)) (sessions (store w)) = false
    /\ existsb (has_user_id userId) (users (store w)) = true
    /\ w1 = with_sessions w0 (sessions (store w) ++ [s]).
Proof.
  unfold createSession, bind, ret. simpl.
  destruct expiresAt as [e|]; simpl; unfold mem_session_create; simpl.
  - destruct (existsb (has_session_id _) _) eqn:Hfree; [discriminate|].
    destruct (existsb (has_user_id _) _) eqn:Huser; [|discriminate].
    intros [= <- <-]. exists w, e. intuition.
  - destruct (existsb (has_session_id _) _) eqn:Hfree; [discriminate|].
    destruct (existsb (has_user_id _) _) eqn:Huser; [|discriminate].
    intros [= <- <-]. exists (tick w), (now w + days 30). intuition.
Qed.

(** [validateSessionToken] on a token whose id finds the row [s] owned by
    [u], in terms of the three readings of the clock it may take. *)
Lemma validateSessionToken_found (token : string) (w : World)
      (s : Session.t) (u : User.t) :
  find (has_session_id (hashToken token)) (sessions (store w)) = Some s ->
  find (has_user_id (Session.userId s)) (users (store w)) = Some u ->
  validateSessionToken token w =
  if now w >=? Session.expiresAt s then
    (Returned (mkResult None None),
     with_sessions (tick w)
       (filter (fun x => negb (has_session_id (hashToken token) x))
               (sessions (store w))))
  else if clock w (S (reads w)) >=? Session.expiresAt s - days 15 then
    let e := clock w (S (S (reads w))) + days 30 in
    (Returned (mkResult (Some (set_expiresAt e s)) (Some u)),
     with_sessions (tick (tick (tick w)))
       (map (fun x => if has_session_id (hashToken token) x
                      then set_expiresAt e x else x)
            (sessions (store w))))
  else
    (Returned (mkResult (Some s) (Some u)), tick (tick w)).
Proof.
  intros Hs Hu.
  assert (Hid : Session.id s = hashToken token).
  { apply find_some in Hs. now apply has_session_id_eq. }
  unfold validateSessionToken.
  set (h := hashToken token) in *. clearbody h.
  unfold bind, ret. simpl.
  unfold mem_session_findUnique_include_user. rewrite Hs, Hu.
  destruct (now w >=? Session.expiresAt s).
  - unfold mem_session_delete. simpl. now rewrite Hs.
  - change (now (tick w)) with (clock w (S (reads w))).
    destruct (clock w (S (reads w)) >=? Session.expiresAt s - days 15).
    + unfold mem_session_update, set_expiresAt. simpl.
      rewrite Hid, Hs. reflexivity.
    + reflexivity.
Qed.

(** C1. When [createSession] has stored a session for a user and its expiry
    is later than the next reading of the clock, validating the same raw
    token at once returns a session and a user, and the user is the one the
    session was created for. *)
Theorem session_round_trip (token userId : string) (expiresAt : option Z)
        (w w1 : World) (s : Session.t) :
  createSession token userId expiresAt w = (Returned s, w1) ->
  now w1 < Session.expiresAt s ->
  exists r w2 s' u,
    validateSessionToken token w1 = (Returned r, w2)
    /\ session r = Some s' /\ user r = Some u
    /\ User.id u = userId
    /\ Session.userId s' = userId
    /\ Session.id s' = Session.id s.
Proof.
  intros Hc Hfuture.
  destruct (createSession_returned _ _ _ _ _ _ Hc)
    as (w0 & e & Hw0 & Hs & Hfree & Huser & Hw1).
  assert (Hfind : find (has_session_id (hashToken token)) (sessions (store w1))
                  = Some s).
  { rewrite Hw1. simpl. apply find_app_new; [exact Hfree|].
    apply has_session_id_eq. now rewrite Hs. }
  destruct (existsb_true_find _ _ _ Huser) as [u Hu].
  assert (Hu1 : find (has_user_id (Session.userId s)) (users (store w1))
                = Some u).
  { rewrite Hw1, Hs. simpl.
    destruct Hw0 as [[_ ->]|[_ [_ ->]]]; exact Hu. }
  assert (Huid : User.id u = userId).
  { apply find_some in Hu. now apply has_user_id_eq. }
  rewrite (validateSessionToken_found _ _ _ _ Hfind Hu1).
  destruct (now w1 >=? Session.expiresAt s) eqn:Hexp; [lia|].
  destruct (clock w1 (S (reads w1)) >=? Session.expiresAt s - days 15).
  - do 4 eexists. split; [reflexivity|]. simpl.
    split; [reflexivity|]. split; [reflexivity|].
    rewrite Hs. simpl. auto.
  - do 4 eexists. split; [reflexivity|]. simpl.
    split; [reflexivity|]. split; [reflexivity|].
    rewrite Hs. simpl. auto.
Qed.

(** C2. For a stored session whose expiry is at or before the reading of
    the clock, [validateSessionToken] on its raw token returns the absent
    result without throwing and deletes the row: a later lookup of the id
    finds nothing, and the other rows are as they were. *)
Theorem lazy_expiry (token : string) (w : World) (s : Session.t) :
  unique_session_ids (store w) -> sessions_owned (store w) ->
  In s (sessions (store w)) ->
  Session.id s = hashToken token ->
  Session.expiresAt s <= now w ->
  exists w',
    validateSessionToken token w = (Returned (mkResult None None), w')
    /\ find (has_session_id (Session.id s)) (sessions (store w')) = None
    /\ session_findUnique_include_user (Session.id s) w' = (Returned None, w')
    /\ (forall x, In x (sessions (store w'))
                  <-> In x (sessions (store w)) /\ x <> s)
    /\ users (store w') = users (store w)
    /\ tokens (store w') = tokens (store w).
Proof.
  intros Huniq Hown Hin Hid Hexp.
  destruct (stored_session_found _ _ Huniq Hown Hin) as [Hs [u [Hu _]]].
  rewrite Hid in Hs.
  rewrite (validateSessionToken_found _ _ _ _ Hs Hu).
  destruct (now w >=? Session.expiresAt s) eqn:Hge; [|lia].
  eexists. split; [reflexivity|]. simpl.
  assert (Hnone : find (has_session_id (Session.id s))
                    (filter (fun x => negb (has_session_id (hashToken token) x))
                            (sessions (store w))) = None).
  { rewrite Hid. apply find_filter_out. }
  split; [exact Hnone|].
  split.
  { unfold mem_session_findUnique_include_user. simpl. now rewrite Hnone. }
  split; [|split; reflexivity].
  intros x. rewrite filter_In, negb_true_iff. split.
  - intros [Hx Hne]. split; [exact Hx|].
    intros ->. apply has_session_id_eq in Hid. congruence.
  - intros [Hx Hne]. split; [exact Hx|].
    destruct (has_session_id (hashToken token) x) eqn:Hh; [|reflexivity].
    exfalso. apply Hne. apply has_session_id_eq in Hh.
    apply (key_unique _ Session.id _ _ _ Huniq Hx Hin). congruence.
Qed.

(** C3. For a stored session that has not expired at the first reading of
    the clock, [validateSessionToken] returns it with its user.  When the
    reading taken for the renewal test is at or after the expiry minus 15
    days, the row's expiry becomes the next reading plus 30 days, in the
    store and in the returned session; when it is before, the returned
    session is the stored one and the store is exactly as it was. *)
Theorem sliding_renewal (token : string) (w : World) (s : Session.t) :
  unique_session_ids (store w) -> sessions_owned (store w) ->
  In s (sessions (store w)) ->
  Session.id s = hashToken token ->
  now w < Session.expiresAt s ->
  let now2 := clock w (S (reads w)) in
  let now3 := clock w (S (S (reads w))) in
  exists u r w',
    validateSessionToken token w = (Returned r, w')
    /\ user r = Some u /\ User.id u = Session.userId s
    /\ (now2 >= Session.expiresAt s - days 15 ->
        let renewed := set_expiresAt (now3 + days 30) s in
        session r = Some renewed
        /\ find (has_session_id (Session.id s)) (sessions (store w'))
           = Some renewed
        /\ (forall x, In x (sessions (store w)) -> x <> s ->
                      In x (sessions (store w')))
        /\ users (store w') = users (store w)
        /\ tokens (store w') = tokens (store w))
    /\ (now2 < Session.expiresAt s - days 15 ->
        session r = Some s /\ store w' = store w).
Proof.
  intros Huniq Hown Hin Hid Hlive now2 now3.
  destruct (stored_session_found _ _ Huniq Hown Hin) as [Hs [u [Hu Huid]]].
  rewrite Hid in Hs.
  rewrite (validateSessionToken_found _ _ _ _ Hs Hu).
  destruct (now w >=? Session.expiresAt s) eqn:Hge; [lia|].
  fold now2 now3.
  destruct (now2 >=? Session.expiresAt s - days 15) eqn:Hwin.
  - exists u. do 2 eexists. split; [reflexivity|]. simpl.
    split; [reflexivity|]. split; [exact Huid|].
    split; [|lia]. intros _. split; [reflexivity|].
    split.
    { rewrite Hid.
      apply (find_map_update _ Session.id (sessions (store w))
               (hashToken token) (set_expiresAt (now3 + days 30)) s);
        [reflexivity|exact Hs]. }
    split; [|split; reflexivity].
    intros x Hx Hne. apply in_map_iff. exists x. split; [|exact Hx].
    destruct (has_session_id (hashToken token) x) eqn:Hh; [|reflexivity].
    exfalso. apply Hne. apply has_session_id_eq in Hh.
    apply (key_unique _ Session.id _ _ _ Huniq Hx Hin). congruence.
  - exists u. do 2 eexists. split; [reflexivity|]. simpl.
    split; [reflexivity|]. split; [exact Huid|].
    split; [lia|]. intros _. split; reflexivity.
Qed.

Lemma verifyToken_find (token : string) (ty : TokenType) (bl : bool)
      (w : World) :
  verifyToken token ty bl w =
  match find (token_where (hashToken token) ty bl) (tokens (store w)) with
  | Some t => (Returned t, w)
  | None => (Thrown (Error "Token not found"), w)
  end.
Proof.
  unfold verifyToken, bind. simpl. unfold mem_token_findFirst.
  now destruct (find _ _).
Qed.

(** Under the uniqueness of the hashed ids, the lookup of [verifyToken]
    finds a stored token exactly when its purpose and flag are the ones
    asked for. *)
Lemma find_token_where (st : Store) (t : Token.t) (ty : TokenType) (bl : bool) :
  unique_token_ids st -> In t (tokens st) ->
  find (token_where (Token.token t) ty bl) (tokens st) =
  if token_where (Token.token t) ty bl t then Some t else None.
Proof.
  intros Huniq Hin.
  destruct (find _ _) as [t'|] eqn:Hf.
  - apply find_some in Hf. destruct Hf as [Hin' Hw].
    assert (t' = t) as ->.
    { apply (key_unique _ Token.token _ _ _ Huniq Hin' Hin).
      now apply token_where_eq in Hw. }
    now rewrite Hw.
  - apply (find_none _ _ Hf) in Hin. now rewrite Hin.
Qed.

(** C4. What [createSession] and [saveToken] write is one row whose
    identifier is the hex encoding of the digest of the encoded raw token;
    the other columns are the arguments other than the raw token.  A call
    that throws writes nothing, and two raw tokens with the same digest
    cannot be told apart by anything a service taking a raw token does:
    the raw token reaches the store through its digest only. *)
Theorem hash_only_persistence (token userId : string) :
  let digest :=
    encodeHexLowerCase (sha256 (TextEncoder_encode token)) in
  (forall expiresAt w s w',
      createSession token userId expiresAt w = (Returned s, w') ->
      exists e,
        s = Session.mk digest userId e
        /\ store w' = mkStore (users (store w))
                              (sessions (store w) ++ [s])
                              (tokens (store w)))
  /\ (forall expires ty bl w t w',
      saveToken token userId expires ty bl w = (Returned t, w') ->
      t = Token.mk digest userId expires ty bl
      /\ store w' = mkStore (users (store w))
                            (sessions (store w))
                            (tokens (store w) ++ [t]))
  /\ (forall expiresAt w e w',
      createSession token userId expiresAt w = (Thrown e, w') ->
      store w' = store w)
  /\ (forall expires ty bl w e w',
      saveToken token userId expires ty bl w = (Thrown e, w') ->
      store w' = store w)
  /\ (forall token2,
      hashToken token2 = hashToken token ->
      (forall expiresAt w,
          createSession token2 userId expiresAt w
          = createSession token userId expiresAt w)
      /\ (forall expires ty bl w,
          saveToken token2 userId expires ty bl w
          = saveToken token userId expires ty bl w)
      /\ (forall w, validateSessionToken token2 w = validateSessionToken token w)
      /\ (forall w, invalidateSession token2 w = invalidateSession token w)
      /\ (forall ty bl w, verifyToken token2 ty bl w = verifyToken token ty bl w)
      /\ (forall newPassword w,
          resetPassword token2 newPassword w
          = resetPassword token newPassword w)).
Proof.
  intros digest.
  assert (Hd : digest = hashToken token) by reflexivity.
  rewrite Hd. clear Hd digest.
  split; [|split; [|split; [|split]]].
  - intros oe w s w' Hc.
    destruct (createSession_returned _ _ _ _ _ _ Hc)
      as (w0 & e & Hw0 & Hs & _ & _ & Hw1).
    exists e. split; [exact Hs|]. rewrite Hw1. simpl.
    destruct Hw0 as [[_ ->]|[_ [_ ->]]]; reflexivity.
  - intros expires ty bl w t w'.
    unfold saveToken, bind, ret. simpl. unfold mem_token_create. simpl.
    destruct (existsb (has_token _) _); [discriminate|].
    destruct (existsb (has_user_id _) _); [|discriminate].
    intros [= <- <-]. split; reflexivity.
  - intros oe w e w'.
    unfold createSession, bind, ret. simpl.
    destruct oe as [x|]; simpl; unfold mem_session_create; simpl;
      destruct (existsb (has_session_id _) _);
      try destruct (existsb (has_user_id _) _);
      try discriminate; now intros [= _ <-].
  - intros expires ty bl w e w'.
    unfold saveToken, bind, ret. simpl. unfold mem_token_create. simpl.
    destruct (existsb (has_token _) _);
      try destruct (existsb (has_user_id _) _);
      try discriminate; now intros [= _ <-].
  - intros token2 Hsame. repeat split; intros.
    + unfold createSession. now rewrite Hsame.
    + unfold saveToken. now rewrite Hsame.
    + unfold validateSessionToken. now rewrite Hsame.
    + unfold invalidateSession. now rewrite Hsame.
    + unfold verifyToken. now rewrite Hsame.
    + unfold resetPassword, resetPassword_try, verifyToken. now rewrite Hsame.
Qed.

(** C5. A stored purpose token whose purpose and blacklisted flag are the
    ones asked for is returned by [verifyToken] whatever its expiry and
    whatever the clock reads: the world comes back as it was, with no
    reading of the clock taken. *)
Theorem verifyToken_ignores_expiry (token : string) (ty : TokenType)
        (bl : bool) (w : World) (t : Token.t) :
  unique_token_ids (store w) ->
  In t (tokens (store w)) ->
  Token.token t = hashToken token ->
  Token.type t = ty ->
  Token.blacklisted t = bl ->
  verifyToken token ty bl w = (Returned t, w).
Proof.
  intros Huniq Hin Hh Hty Hbl.
  rewrite verifyToken_find, <- Hh, (find_token_where _ _ _ _ Huniq Hin).
  assert (Hw : token_where (Token.token t) ty bl t = true)
    by (apply token_where_eq; auto).
  now rewrite Hw.
Qed.

(** C8. A purpose token stored with the blacklisted flag set is not
    returned by [verifyToken] asked for a token that is not blacklisted:
    the call throws 'Token not found'. *)
Theorem blacklist_isolation (token : string) (ty : TokenType)
        (w : World) (t : Token.t) :
  unique_token_ids (store w) ->
  In t (tokens (store w)) ->
  Token.token t = hashToken token ->
  Token.type t = ty ->
  Token.blacklisted t = true ->
  verifyToken token ty false w = (Thrown (Error "Token not found"), w).
Proof.
  intros Huniq Hin Hh Hty Hbl.
  rewrite verifyToken_find, <- Hh, (find_token_where _ _ _ _ Huniq Hin).
  assert (Hw : token_where (Token.token t) ty false t = false).
  { destruct (token_where _ _ _ t) eqn:Hw; [|reflexivity].
    apply token_where_eq in Hw. destruct Hw as (_ & _ & Hw). congruence. }
  now rewrite Hw.
Qed.

(** What [resetPassword] did when it returned. *)
Lemma resetPassword_returned (token newPassword : string) (w w' : World) :
  resetPassword token newPassword w = (Returned tt, w') ->
  exists t u,
    find (token_where (hashToken token) RESET_PASSWORD false)
         (tokens (store w)) = Some t
    /\ find (has_user_id (Token.userId t)) (users (store w)) = Some u
    /\ tokens (store w')
       = filter (fun x => negb (owned_where (User.id u) RESET_PASSWORD x))
                (tokens (store w))
    /\ sessions (store w') = sessions (store w)
    /\ users (store w')
       = map (fun x => if has_user_id (User.id u) x
                       then set_password (encryptPassword newPassword) x
                       else x)
             (users (store w)).
Proof.
  unfold resetPassword, try_catch, resetPassword_try.
  unfold bind at 1. rewrite verifyToken_find.
  destruct (find (token_where _ _ _) _) as [t|] eqn:Ht; [|discriminate].
  unfold bind, ret, throw. simpl. unfold mem_getUserById. simpl.
  destruct (find (has_user_id (Token.userId t)) _) as [u|] eqn:Hu;
    [|discriminate].
  unfold mem_updateUserById_password.
  assert (Hid : User.id u = Token.userId t).
  { apply find_some in Hu. now apply has_user_id_eq. }
  rewrite Hid, Hu. simpl.
  intros [= <-]. exists t, u. rewrite Hid. simpl. auto.
Qed.

(** C6. Once [resetPassword] has returned, the store holds no
    RESET_PASSWORD token of the user who owned the token, and
    [verifyToken] on the same raw token for RESET_PASSWORD throws
    'Token not found'. *)
Theorem reset_token_single_use (token newPassword : string) (w w' : World) :
  unique_token_ids (store w) ->
  resetPassword token newPassword w = (Returned tt, w') ->
  exists t,
    In t (tokens (store w))
    /\ Token.token t = hashToken token
    /\ Token.type t = RESET_PASSWORD
    /\ (forall t', In t' (tokens (store w')) ->
                   ~ (Token.userId t' = Token.userId t
                      /\ Token.type t' = RESET_PASSWORD))
    /\ (forall bl,
           verifyToken token RESET_PASSWORD bl w'
           = (Thrown (Error "Token not found"), w')).
Proof.
  intros Huniq Hr.
  destruct (resetPassword_returned _ _ _ _ Hr)
    as (t & u & Ht & Hu & Htok & _ & _).
  apply find_some in Ht. destruct Ht as [Hin Hw].
  apply token_where_eq in Hw. destruct Hw as (Hh & Hty & Hbl).
  assert (Hid : User.id u = Token.userId t).
  { apply find_some in Hu. now apply has_user_id_eq. }
  exists t. repeat split; auto.
  - intros t' Hin' Howned. rewrite Htok in Hin'.
    apply filter_In in Hin'. destruct Hin' as [_ Hkept].
    apply negb_true_iff in Hkept.
    rewrite Hid in Hkept.
    apply owned_where_eq in Howned. congruence.
  - intros bl. rewrite verifyToken_find.
    destruct (find (token_where _ _ _) _) as [t'|] eqn:Hf; [|reflexivity].
    exfalso. apply find_some in Hf. destruct Hf as [Hin' Hw'].
    apply token_where_eq in Hw'. destruct Hw' as (Hh' & _ & _).
    rewrite Htok in Hin'. apply filter_In in Hin'.
    destruct Hin' as [Hin' Hkept]. apply negb_true_iff in Hkept.
    assert (t' = t) as ->.
    { apply (key_unique _ Token.token _ _ _ Huniq Hin' Hin). congruence. }
    assert (Ho : owned_where (User.id u) RESET_PASSWORD t = true)
      by (apply owned_where_eq; auto).
    congruence.
Qed.

(** ** The invariants hold of every store the services can produce *)

Lemma store_ok_empty (us : list User.t) : store_ok (mkStore us [] []).
Proof.
  repeat split; try constructor. intros s [].
Qed.

Lemma preserves_ret {A} (a : A) : preserves (ret a).
Proof. intros w r w'. unfold ret. now intros [= _ <-]. Qed.

Lemma preserves_throw {A} (e : exn) : preserves (@throw World A e).
Proof. intros w r w'. unfold throw. now intros [= _ <-]. Qed.

Lemma preserves_bind {A B} (m : M World A) (k : A -> M World B) :
  preserves m -> (forall a, preserves (k a)) -> preserves (bind m k).
Proof.
  intros Hm Hk w r w'. unfold bind.
  destruct (m w) as [[a|e] w1] eqn:Em; intros Hr Hok.
  - exact (Hk a _ _ _ Hr (Hm _ _ _ Em Hok)).
  - injection Hr as _ <-. exact (Hm _ _ _ Em Hok).
Qed.

Lemma preserves_same_store {A} (m : M World A) :
  (forall w, store (snd (m w)) = store w) -> preserves m.
Proof.
  intros Hm w r w' Hr Hok. specialize (Hm w). rewrite Hr in Hm.
  simpl in Hm. now rewrite Hm.
Qed.

Lemma existsb_user_update (i k : string) (f : User.t -> User.t)
      (l : list User.t) :
  (forall u, User.id (f u) = User.id u) ->
  existsb (has_user_id i) (map (fun x => if has_user_id k x then f x else x) l)
  = existsb (has_user_id i) l.
Proof.
  intros Hf. induction l as [|u l IH]; simpl; [reflexivity|].
  rewrite IH. f_equal.
  destruct (has_user_id k u); [|reflexivity].
  unfold has_user_id. now rewrite Hf.
Qed.

Lemma preserves_Date_now : preserves mem_Date_now.
Proof. now apply preserves_same_store. Qed.

Lemma preserves_session_create (s : Session.t) :
  preserves (mem_session_create s).
Proof.
  intros w r w'. unfold mem_session_create.
  destruct (existsb (has_session_id _) _) eqn:Hfree; [now intros [= _ <-]|].
  destruct (existsb (has_user_id _) _) eqn:Huser; [|now intros [= _ <-]].
  intros [= _ <-] (Hs & Ht & Ho). repeat split; simpl.
  - now apply (NoDup_map_app_new _ Session.id).
  - exact Ht.
  - intros x Hx. apply in_app_iff in Hx.
    destruct Hx as [Hx|[<-|[]]]; [now apply Ho|exact Huser].
Qed.

Lemma preserves_session_findUnique (i : string) :
  preserves (mem_session_findUnique_include_user i).
Proof.
  apply preserves_same_store. intros w.
  unfold mem_session_findUnique_include_user.
  destruct (find (has_session_id i) _); [|reflexivity].
  now destruct (find (has_user_id _) _).
Qed.

Lemma preserves_session_delete (i : string) :
  preserves (mem_session_delete i).
Proof.
  intros w r w'. unfold mem_session_delete.
  destruct (find _ _); [|now intros [= _ <-]].
  intros [= _ <-] (Hs & Ht & Ho). repeat split; simpl.
  - now apply (NoDup_map_filter _ Session.id).
  - exact Ht.
  - intros x Hx. apply filter_In in Hx. now apply Ho.
Qed.

Lemma preserves_session_update (i : string) (e : Z) :
  preserves (mem_session_update i e).
Proof.
  intros w r w'. unfold mem_session_update.
  destruct (find _ _); [|now intros [= _ <-]].
  intros [= _ <-] (Hs & Ht & Ho). repeat split; simpl.
  - unfold unique_session_ids. simpl.
    now rewrite (map_key_update _ Session.id).
  - exact Ht.
  - intros x Hx. apply in_map_iff in Hx. destruct Hx as [y [<- Hy]].
    destruct (has_session_id i y); simpl; now apply Ho.
Qed.

Lemma preserves_token_create (t : Token.t) : preserves (mem_token_create t).
Proof.
  intros w r w'. unfold mem_token_create.
  destruct (existsb (has_token _) _) eqn:Hfree; [now intros [= _ <-]|].
  destruct (existsb (has_user_id _) _); [|now intros [= _ <-]].
  intros [= _ <-] (Hs & Ht & Ho). repeat split; simpl; auto.
  now apply (NoDup_map_app_new _ Token.token).
Qed.

Lemma preserves_token_findFirst (h : string) (ty : TokenType) (bl : bool) :
  preserves (mem_token_findFirst h ty bl).
Proof. now apply preserves_same_store. Qed.

Lemma preserves_token_deleteMany (uid : string) (ty : TokenType) :
  preserves (mem_token_deleteMany uid ty).
Proof.
  intros w r w'. unfold mem_token_deleteMany.
  intros [= _ <-] (Hs & Ht & Ho). repeat split; simpl; auto.
  now apply (NoDup_map_filter _ Token.token).
Qed.

Lemma preserves_getUserById (i : string) : preserves (mem_getUserById i).
Proof. now apply preserves_same_store. Qed.

Lemma preserves_updateUserById (i p : string) :
  preserves (mem_updateUserById_password i p).
Proof.
  intros w r w'. unfold mem_updateUserById_password.
  destruct (find _ _); [|now intros [= _ <-]].
  intros [= _ <-] (Hs & Ht & Ho). repeat split; simpl; auto.
  intros x Hx. simpl. rewrite existsb_user_update; [now apply Ho|reflexivity].
Qed.

Create HintDb keeps.
#[local] Hint Resolve preserves_ret preserves_throw preserves_Date_now
  preserves_session_create preserves_session_findUnique
  preserves_session_delete preserves_session_update preserves_token_create
  preserves_token_findFirst preserves_token_deleteMany preserves_getUserById
  preserves_updateUserById : keeps.

Ltac keeps :=
  repeat first
    [ apply preserves_bind; [|intros ?]
    | match goal with
      | |- preserves (match ?x with _ => _ end) => destruct x
      | |- preserves (if ?b then _ else _) => destruct b
      end
    | solve [simpl; auto with keeps] ].

Lemma preserves_createSession (token userId : string) (e : option Z) :
  preserves (createSession token userId e).
Proof. unfold createSession. keeps. Qed.

Lemma preserves_validateSessionToken (token : string) :
  preserves (validateSessionToken token).
Proof. unfold validateSessionToken. keeps. Qed.

Lemma preserves_invalidateSession (token : string) :
  preserves (invalidateSession token).
Proof. unfold invalidateSession. keeps. Qed.

Lemma preserves_saveToken (token userId : string) (e : Z) (ty : TokenType)
      (bl : bool) :
  preserves (saveToken token userId e ty bl).
Proof. unfold saveToken. keeps. Qed.

Lemma preserves_verifyToken (token : string) (ty : TokenType) (bl : bool) :
  preserves (verifyToken token ty bl).
Proof. unfold verifyToken. keeps. Qed.

Lemma preserves_resetPassword_try (token newPassword : string) :
  preserves (resetPassword_try token newPassword).
Proof. unfold resetPassword_try. keeps. Qed.

Lemma preserves_resetPassword (token newPassword : string) :
  preserves (resetPassword token newPassword).
Proof.
  intros w r w'. unfold resetPassword, try_catch, throw.
  destruct (resetPassword_try token newPassword w) as [[a|e] w1] eqn:Et;
    intros [= _ <-] Hok; simpl;
    exact (preserves_resetPassword_try _ _ _ _ _ Et Hok).
Qed.

(** Every world the services reach has unique session ids, unique token
    ids, and an owner for each session. *)
Lemma reachable_store_ok (w : World) : reachable w -> store_ok (store w).
Proof.
  induction 1 as [us c n l|A m w r w' _ IH Hcall Hrun].
  - apply store_ok_empty.
  - revert Hrun IH. generalize r w'. revert w.
    change (preserves m).
    destruct Hcall.
    + apply preserves_createSession.
    + apply preserves_validateSessionToken.
    + apply preserves_invalidateSession.
    + apply preserves_saveToken.
    + apply preserves_verifyToken.
    + apply preserves_resetPassword.
Qed.

End OverTheStore.

(** * More of the services over the store *)

Section MoreOverTheStore.
Context `{E : Externals} `{E2 : MoreExternals}.

(** X1. Logging out a stored session deletes its row and nothing else:
    validating the same raw token afterwards gives the absent result, the
    other sessions, the users and the purpose tokens are as they were, and
    the clock was not read. *)
Theorem logout_revokes (token : string) (w : World) (s : Session.t) :
  unique_session_ids (store w) ->
  In s (sessions (store w)) ->
  Session.id s = hashToken token ->
  exists w',
    logout token w = (Returned tt, w')
    /\ validateSessionToken token w' = (Returned (mkResult None None), w')
    /\ (forall x, In x (sessions (store w'))
                  <-> In x (sessions (store w)) /\ x <> s)
    /\ users (store w') = users (store w)
    /\ tokens (store w') = tokens (store w)
    /\ reads w' = reads w.
Proof.
  intros Huniq Hin Hid.
  pose proof (find_by_key _ Session.id _ _ Huniq Hin) as Hs.
  change (find (has_session_id (Session.id s)) (sessions (store w)) = Some s)
    in Hs.
  rewrite Hid in Hs.
  exists (with_sessions w
            (filter (fun x => negb (has_session_id (hashToken token) x))
                    (sessions (store w)))).
  split.
  { unfold logout, invalidateSession, bind, ret. simpl.
    unfold mem_session_delete. now rewrite Hs. }
  split.
  { unfold validateSessionToken, bind, ret. simpl.
    unfold mem_session_findUnique_include_user. simpl.
    now rewrite find_filter_out. }
  split; [|repeat split].
  intros x. simpl. rewrite filter_In, negb_true_iff. split.
  - intros [Hx Hne]. split; [exact Hx|].
    intros ->. apply has_session_id_eq in Hid. congruence.
  - intros [Hx Hne]. split; [exact Hx|].
    destruct (has_session_id (hashToken token) x) eqn:Hh; [|reflexivity].
    exfalso. apply Hne. apply has_session_id_eq in Hh.
    apply (key_unique _ Session.id _ _ _ Huniq Hx Hin). congruence.
Qed.

(** X2. On a store in which every session has its owner,
    [validateSessionToken] never throws; and for a raw token whose id is
    not stored it returns the absent result and leaves the world as it
    was, the clock unread. *)
Theorem validateSessionToken_total (token : string) (w : World) :
  sessions_owned (store w) ->
  (exists r w', validateSessionToken token w = (Returned r, w'))
  /\ (find (has_session_id (hashToken token)) (sessions (store w)) = None ->
      validateSessionToken token w = (Returned (mkResult None None), w)).
Proof.
  intros Hown. split.
  - destruct (find (has_session_id (hashToken token)) (sessions (store w)))
      as [s|] eqn:Hs.
    + pose proof (find_some _ _ Hs) as [Hin _].
      destruct (existsb_true_find _ _ _ (Hown s Hin)) as [u Hu].
      rewrite (validateSessionToken_found _ _ _ _ Hs Hu).
      destruct (now w >=? _); [eauto|].
      destruct (clock w (S (reads w)) >=? _); eauto.
    + unfold validateSessionToken, bind, ret. simpl.
      unfold mem_session_findUnique_include_user. rewrite Hs. eauto.
  - intros Hs. unfold validateSessionToken, bind, ret. simpl.
    unfold mem_session_findUnique_include_user. now rewrite Hs.
Qed.

(** X3. Whatever [validateSessionToken] does and however it ends, it
    writes to the row of its own token only: the users, the purpose tokens
    and every session with another id are the same before and after. *)
Theorem validateSessionToken_frame (token : string) (w w' : World)
        (o : outcome SessionValidationResult) :
  validateSessionToken token w = (o, w') ->
  users (store w') = users (store w)
  /\ tokens (store w') = tokens (store w)
  /\ (forall x, Session.id x <> hashToken token ->
                (In x (sessions (store w')) <-> In x (sessions (store w)))).
Proof.
  destruct (find (has_session_id (hashToken token)) (sessions (store w)))
    as [s|] eqn:Hs.
  - destruct (find (has_user_id (Session.userId s)) (users (store w)))
      as [u|] eqn:Hu.
    + rewrite (validateSessionToken_found _ _ _ _ Hs Hu).
      destruct (now w >=? _).
      * intros [= _ <-]. simpl. repeat split; try tauto.
        -- intros Hx. apply filter_In in Hx. tauto.
        -- intros Hx. apply filter_In. split; [exact Hx|].
           apply negb_true_iff.
           destruct (has_session_id (hashToken token) x) eqn:Hh;
             [|reflexivity].
           apply has_session_id_eq in Hh. contradiction.
      * destruct (clock w (S (reads w)) >=? _).
        -- intros [= _ <-]. simpl. repeat split.
           ++ intros Hx. apply in_map_iff in Hx.
              destruct Hx as [y [Hy Hin]].
              destruct (has_session_id (hashToken token) y) eqn:Hh.
              ** apply has_session_id_eq in Hh. subst x. simpl in H.
                 contradiction.
              ** now subst.
           ++ intros Hx. apply in_map_iff. exists x. split; [|exact Hx].
              destruct (has_session_id (hashToken token) x) eqn:Hh;
                [|reflexivity].
              apply has_session_id_eq in Hh. contradiction.
        -- intros [= _ <-]. simpl. repeat split; tauto.
    + unfold validateSessionToken, bind, ret. simpl.
      unfold mem_session_findUnique_include_user. rewrite Hs, Hu.
      intros [= _ <-]. repeat split; tauto.
  - unfold validateSessionToken, bind, ret. simpl.
    unfold mem_session_findUnique_include_user. rewrite Hs.
    intros [= _ <-]. repeat split; tauto.
Qed.

(** X4. When the clock does not run backwards between the renewal test
    and the renewal, a validation that finds a live stored session returns
    exactly the row it leaves in the store, never shortens its validity,
    and leaves it valid for more than 15 days after the reading of the
    renewal test. *)
Theorem validateSessionToken_keeps_window (token : string) (w : World)
        (s : Session.t) :
  unique_session_ids (store w) -> sessions_owned (store w) ->
  In s (sessions (store w)) ->
  Session.id s = hashToken token ->
  now w < Session.expiresAt s ->
  clock w (S (reads w)) <= clock w (S (S (reads w))) ->
  exists s' u w',
    validateSessionToken token w
    = (Returned (mkResult (Some s') (Some u)), w')
    /\ find (has_session_id (hashToken token)) (sessions (store w'))
       = Some s'
    /\ Session.expiresAt s <= Session.expiresAt s'
    /\ clock w (S (reads w)) + days 15 < Session.expiresAt s'.
Proof.
  intros Huniq Hown Hin Hid Hlive Hmono.
  destruct (stored_session_found _ _ Huniq Hown Hin) as [Hs [u [Hu _]]].
  rewrite Hid in Hs.
  rewrite (validateSessionToken_found _ _ _ _ Hs Hu).
  destruct (now w >=? Session.expiresAt s) eqn:Hge; [lia|].
  destruct (clock w (S (reads w)) >=? Session.expiresAt s - days 15) eqn:Hwin.
  - do 3 eexists. split; [reflexivity|]. simpl. split.
    { apply (find_map_update _ Session.id (sessions (store w))
               (hashToken token) _ s); [reflexivity|exact Hs]. }
    unfold days in *. simpl. lia.
  - do 3 eexists. split; [reflexivity|]. simpl. split; [exact Hs|].
    unfold days in *. lia.
Qed.

(** X5. A session created with the default expiry expires 30 days after
    the reading of the clock at its creation, and a validation whose
    readings are before that expiry and before the 15th day returns the
    session as created and writes nothing. *)
Theorem fresh_session_not_rewritten (token userId : string) (w w1 : World)
        (s : Session.t) :
  createSession token userId None w = (Returned s, w1) ->
  now w1 < now w + days 30 ->
  clock w1 (S (reads w1)) < now w + days 15 ->
  Session.expiresAt s = now w + days 30
  /\ exists u w2,
      validateSessionToken token w1
      = (Returned (mkResult (Some s) (Some u)), w2)
      /\ User.id u = userId
      /\ store w2 = store w1.
Proof.
  intros Hc Hlive Hearly.
  destruct (createSession_returned _ _ _ _ _ _ Hc)
    as (w0 & e & Hw0 & Hs & Hfree & Huser & Hw1).
  destruct Hw0 as [[Hsome _]|[_ [He Hw0]]]; [discriminate|].
  subst e w0.
  assert (Hexp : Session.expiresAt s = now w + days 30) by now rewrite Hs.
  split; [exact Hexp|].
  assert (Hfind : find (has_session_id (hashToken token)) (sessions (store w1))
                  = Some s).
  { rewrite Hw1. simpl. apply find_app_new; [exact Hfree|].
    apply has_session_id_eq. now rewrite Hs. }
  destruct (existsb_true_find _ _ _ Huser) as [u Hu].
  assert (Hu1 : find (has_user_id (Session.userId s)) (users (store w1))
                = Some u).
  { rewrite Hw1, Hs. exact Hu. }
  rewrite (validateSessionToken_found _ _ _ _ Hfind Hu1), Hexp.
  destruct (now w1 >=? now w + days 30) eqn:H1; [lia|].
  destruct (clock w1 (S (reads w1)) >=? now w + days 30 - days 15) eqn:H2.
  { unfold days in *. lia. }
  do 2 eexists. split; [reflexivity|]. split; [|reflexivity].
  apply find_some in Hu. now apply has_user_id_eq.
Qed.

Lemma find_app_only {A} (p : A -> bool) (l : list A) (x : A) :
  existsb p l = false ->
  find p (l ++ [x]) = if p x then Some x else None.
Proof.
  induction l as [|y l IH]; simpl; [reflexivity|].
  destruct (p y); simpl; [discriminate|exact IH].
Qed.

Lemma no_token_no_match (h : string) (ty : TokenType) (bl : bool)
      (l : list Token.t) :
  existsb (has_token h) l = false -> existsb (token_where h ty bl) l = false.
Proof.
  induction l as [|y l IH]; simpl; [reflexivity|].
  intros Hl. apply orb_false_iff in Hl. destruct Hl as [Hy Hl].
  unfold token_where at 1. now rewrite Hy, (IH Hl).
Qed.

(** What [saveToken] did when it returned. *)
Lemma saveToken_returned (token userId : string) (e : Z) (ty : TokenType)
      (bl : bool) (w w' : World) (t : Token.t) :
  saveToken token userId e ty bl w = (Returned t, w') ->
  t = Token.mk (hashToken token) userId e ty bl
  /\ existsb (has_token (hashToken token)) (tokens (store w)) = false
  /\ existsb (has_user_id userId) (users (store w)) = true
  /\ w' = with_tokens w (tokens (store w) ++ [t]).
Proof.
  unfold saveToken, bind, ret. simpl. unfold mem_token_create. simpl.
  destruct (existsb (has_token _) _) eqn:Hfree; [discriminate|].
  destruct (existsb (has_user_id _) _) eqn:Huser; [|discriminate].
  intros [= <- <-]. auto.
Qed.

(** A token appended under a digest no stored token has is the only one
    its digest finds. *)
Lemma issued_token_found (l : list Token.t) (t : Token.t) (ty : TokenType)
      (bl : bool) :
  existsb (has_token (Token.token t)) l = false ->
  find (token_where (Token.token t) ty bl) (l ++ [t])
  = if token_where (Token.token t) ty bl t then Some t else None.
Proof.
  intros Hfree. apply find_app_only. now apply no_token_no_match.
Qed.

(** Once the tokens of its user and purpose are deleted, its digest finds
    nothing. *)
Lemma issued_token_consumed (l : list Token.t) (t : Token.t)
      (ty : TokenType) (bl : bool) :
  existsb (has_token (Token.token t)) l = false ->
  find (token_where (Token.token t) ty bl)
       (filter (fun x => negb (owned_where (Token.userId t) (Token.type t) x))
               (l ++ [t]))
  = None.
Proof.
  intros Hfree.
  destruct (find _ _) as [x|] eqn:Hf; [|reflexivity].
  exfalso. apply find_some in Hf. destruct Hf as [Hin Hw].
  apply filter_In in Hin. destruct Hin as [Hin Hkept].
  apply negb_true_iff in Hkept. apply token_where_eq in Hw.
  destruct Hw as (Hh & _ & _).
  apply in_app_iff in Hin. destruct Hin as [Hin|[<-|[]]].
  - assert (Hex : existsb (has_token (Token.token t)) l = true).
    { apply existsb_exists. exists x. split; [exact Hin|].
      unfold has_token. now apply String.eqb_eq. }
    congruence.
  - assert (Ho : owned_where (Token.userId t) (Token.type t) t = true)
      by (apply owned_where_eq; auto).
    congruence.
Qed.

(** X6. A purpose token that [saveToken] has stored is returned by
    [verifyToken] for the same raw token, purpose and blacklisted flag,
    and for any other purpose or flag [verifyToken] throws 'Token not
    found': a token saved for one purpose cannot be used for another. *)
Theorem saveToken_verifyToken (token userId : string) (expires : Z)
        (ty : TokenType) (bl : bool) (w w' : World) (t : Token.t) :
  saveToken token userId expires ty bl w = (Returned t, w') ->
  verifyToken token ty bl w' = (Returned t, w')
  /\ Token.userId t = userId /\ Token.expires t = expires
  /\ (forall ty' bl',
         ty' <> ty \/ bl' <> bl ->
         verifyToken token ty' bl' w'
         = (Thrown (Error "Token not found"), w')).
Proof.
  intros Hs.
  destruct (saveToken_returned _ _ _ _ _ _ _ _ Hs) as (Ht & Hfree & _ & ->).
  assert (Hh : Token.token t = hashToken token) by now rewrite Ht.
  rewrite <- Hh in Hfree.
  split; [|split; [now rewrite Ht|split; [now rewrite Ht|]]].
  - rewrite verifyToken_find, <- Hh. simpl.
    rewrite (issued_token_found _ _ _ _ Hfree).
    assert (Hw : token_where (Token.token t) ty bl t = true)
      by (apply token_where_eq; rewrite Ht; auto).
    now rewrite Hw.
  - intros ty' bl' Hdiff. rewrite verifyToken_find, <- Hh. simpl.
    rewrite (issued_token_found _ _ _ _ Hfree).
    destruct (token_where (Token.token t) ty' bl' t) eqn:Hw; [|reflexivity].
    apply token_where_eq in Hw. rewrite Ht in Hw. simpl in Hw.
    destruct Hw as (_ & Hty & Hbl). destruct Hdiff; congruence.
Qed.

(** What [resetPassword] does when the token and its user are found. *)
Lemma resetPassword_found (token newPassword : string) (w : World)
      (t : Token.t) (u : User.t) :
  find (token_where (hashToken token) RESET_PASSWORD false)
       (tokens (store w)) = Some t ->
  find (has_user_id (Token.userId t)) (users (store w)) = Some u ->
  resetPassword token newPassword w =
  (Returned tt,
   with_tokens
     (with_users w
        (map (fun x => if has_user_id (Token.userId t) x
                       then set_password (encryptPassword newPassword) x
                       else x)
             (users (store w))))
     (filter (fun x => negb (owned_where (Token.userId t) RESET_PASSWORD x))
             (tokens (store w)))).
Proof.
  intros Ht Hu.
  assert (Hid : User.id u = Token.userId t).
  { apply find_some in Hu. now apply has_user_id_eq. }
  unfold resetPassword, try_catch, resetPassword_try.
  unfold bind at 1. rewrite verifyToken_find, Ht.
  unfold bind, ret. simpl. unfold mem_getUserById. simpl. rewrite Hu.
  unfold mem_updateUserById_password. rewrite Hid, Hu. reflexivity.
Qed.

(** X7. A password reset that returns consumed a stored RESET_PASSWORD
    token that was not blacklisted, and deleted the RESET_PASSWORD tokens
    of the user who owned it.  It leaves every session as it was, so the
    sessions of that user stay valid; that user is still stored, and the
    other users, the other purpose tokens, the log and the clock are
    untouched. *)
Theorem resetPassword_effects (token newPassword : string) (w w' : World) :
  resetPassword token newPassword w = (Returned tt, w') ->
  exists t,
    In t (tokens (store w))
    /\ Token.token t = hashToken token
    /\ Token.type t = RESET_PASSWORD
    /\ Token.blacklisted t = false
    /\ sessions (store w') = sessions (store w)
    /\ (exists u', In u' (users (store w'))
                   /\ User.id u' = Token.userId t)
    /\ (forall u, User.id u <> Token.userId t ->
                  (In u (users (store w')) <-> In u (users (store w))))
    /\ (forall x, In x (tokens (store w')) <->
                  In x (tokens (store w))
                  /\ ~ (Token.userId x = Token.userId t
                        /\ Token.type x = RESET_PASSWORD))
    /\ logged w' = logged w
    /\ reads w' = reads w.
Proof.
  intros Hr.
  destruct (resetPassword_returned _ _ _ _ Hr) as (t & u & Ht & Hu & _).
  rewrite (resetPassword_found _ _ _ _ _ Ht Hu) in Hr.
  injection Hr as <-.
  pose proof (find_some _ _ Ht) as [Hin Hw].
  apply token_where_eq in Hw. destruct Hw as (Hh & Hty & Hbl).
  pose proof (find_some _ _ Hu) as [Huin Huid].
  exists t. simpl. repeat split; auto.
  - exists (set_password (encryptPassword newPassword) u). split.
    + apply in_map_iff. exists u. now rewrite Huid.
    + simpl. now apply has_user_id_eq.
  - intros Hu'. apply in_map_iff in Hu'. destruct Hu' as [y [Hy Hyin]].
    destruct (has_user_id (Token.userId t) y) eqn:Hh'.
    + apply has_user_id_eq in Hh'. subst u0. simpl in H. contradiction.
    + now subst.
  - intros Hu'. apply in_map_iff. exists u0. split; [|exact Hu'].
    destruct (has_user_id (Token.userId t) u0) eqn:Hh'; [|reflexivity].
    apply has_user_id_eq in Hh'. contradiction.
  - apply filter_In in H. tauto.
  - apply filter_In in H. destruct H as [_ Hk].
    apply negb_true_iff in Hk. intros Ho.
    apply owned_where_eq in Ho. congruence.
  - intros [Hx Hno]. apply filter_In. split; [exact Hx|].
    apply negb_true_iff.
    destruct (owned_where (Token.userId t) RESET_PASSWORD x) eqn:Ho;
      [|reflexivity].
    apply owned_where_eq in Ho. contradiction.
Qed.

(** X8. When no stored token with the digest of the raw token is a
    RESET_PASSWORD token that is not blacklisted, [resetPassword] throws
    the 401 error, leaves the store as it was, and logs 'Token not
    found'. *)
Theorem resetPassword_unknown_token (token newPassword : string) (w : World) :
  (forall t, In t (tokens (store w)) ->
             Token.token t = hashToken token ->
             Token.type t = RESET_PASSWORD ->
             Token.blacklisted t = true) ->
  exists w',
    resetPassword token newPassword w
    = (Thrown (ApiError 401 "Password reset failed"), w')
    /\ store w' = store w
    /\ logged w' = (logged w ++ [Error "Token not found"])%list.
Proof.
  intros Hnone.
  assert (Hf : find (token_where (hashToken token) RESET_PASSWORD false)
                    (tokens (store w)) = None).
  { destruct (find _ _) as [t|] eqn:Hf; [|reflexivity].
    apply find_some in Hf. destruct Hf as [Hin Hw].
    apply token_where_eq in Hw. destruct Hw as (Hh & Hty & Hbl).
    specialize (Hnone t Hin Hh Hty). congruence. }
  eexists. split.
  - unfold resetPassword, try_catch, resetPassword_try.
    unfold bind at 1. rewrite verifyToken_find, Hf. reflexivity.
  - split; reflexivity.
Qed.

(** What [verifyEmail] does when the token and its user are found. *)
Lemma verifyEmail_found (token : string) (w : World) (t : Token.t)
      (u : User.t) :
  find (token_where (hashToken token) VERIFY_EMAIL false)
       (tokens (store w)) = Some t ->
  find (has_user_id (Token.userId t)) (users (store w)) = Some u ->
  verifyEmail token w =
  (Returned tt,
   with_users
     (with_tokens w
        (filter (fun x => negb (owned_where (Token.userId t) VERIFY_EMAIL x))
                (tokens (store w))))
     (map (fun x => if has_user_id (Token.userId t) x
                    then set_isEmailVerified true x else x)
          (users (store w)))).
Proof.
  intros Ht Hu.
  unfold verifyEmail, try_catch, verifyEmail_try.
  unfold bind at 1. rewrite verifyToken_find, Ht.
  unfold bind, ret. simpl.
  unfold mem_updateUserById_isEmailVerified. simpl. now rewrite Hu.
Qed.

(** X10. For a stored VERIFY_EMAIL token that is not blacklisted and whose
    user exists, whatever its expiry, [verifyEmail] returns: the rows of
    that user get the verified flag and nothing else of them changes, the
    user's VERIFY_EMAIL tokens are deleted, the sessions stay, and
    [verifyToken] on the same raw token then throws 'Token not found'. *)
Theorem verifyEmail_effects (token : string) (w : World) (t : Token.t)
        (u : User.t) :
  unique_token_ids (store w) ->
  In t (tokens (store w)) ->
  Token.token t = hashToken token ->
  Token.type t = VERIFY_EMAIL ->
  Token.blacklisted t = false ->
  In u (users (store w)) -> User.id u = Token.userId t ->
  exists w',
    verifyEmail token w = (Returned tt, w')
    /\ users (store w')
       = map (fun x => if has_user_id (Token.userId t) x
                       then set_isEmailVerified true x else x)
             (users (store w))
    /\ (forall x, In x (tokens (store w')) <->
                  In x (tokens (store w))
                  /\ ~ (Token.userId x = Token.userId t
                        /\ Token.type x = VERIFY_EMAIL))
    /\ sessions (store w') = sessions (store w)
    /\ (forall bl,
           verifyToken token VERIFY_EMAIL bl w'
           = (Thrown (Error "Token not found"), w')).
Proof.
  intros Huniq Hin Hh Hty Hbl Huin Huid.
  assert (Ht : find (token_where (hashToken token) VERIFY_EMAIL false)
                    (tokens (store w)) = Some t).
  { rewrite <- Hh, (find_token_where _ _ _ _ Huniq Hin).
    assert (Hw : token_where (Token.token t) VERIFY_EMAIL false t = true)
      by (apply token_where_eq; auto).
    now rewrite Hw. }
  assert (Hex : existsb (has_user_id (Token.userId t)) (users (store w))
                = true).
  { apply existsb_exists. exists u. split; [exact Huin|].
    now apply has_user_id_eq. }
  destruct (existsb_true_find _ _ _ Hex) as [u0 Hu0].
  rewrite (verifyEmail_found _ _ _ _ Ht Hu0).
  eexists. split; [reflexivity|]. simpl.
  split; [reflexivity|]. split; [|split; [reflexivity|]].
  - intros x. rewrite filter_In, negb_true_iff. split.
    + intros [Hx Hk]. split; [exact Hx|]. intros Ho.
      apply owned_where_eq in Ho. congruence.
    + intros [Hx Hno]. split; [exact Hx|].
      destruct (owned_where (Token.userId t) VERIFY_EMAIL x) eqn:Ho;
        [|reflexivity].
      apply owned_where_eq in Ho. contradiction.
  - intros bl. rewrite verifyToken_find. simpl.
    destruct (find (token_where (hashToken token) VERIFY_EMAIL bl) _)
      as [t'|] eqn:Hf; [|reflexivity].
    exfalso. apply find_some in Hf. destruct Hf as [Hin' Hw'].
    apply token_where_eq in Hw'. destruct Hw' as (Hh' & _ & _).
    apply filter_In in Hin'. destruct Hin' as [Hin' Hkept].
    apply negb_true_iff in Hkept.
    assert (t' = t) as ->.
    { apply (key_unique _ Token.token _ _ _ Huniq Hin' Hin). congruence. }
    assert (Ho : owned_where (Token.userId t) VERIFY_EMAIL t = true)
      by (apply owned_where_eq; auto).
    congruence.
Qed.

(** X11. [loginUserWithEmailAndPassword] reads and never writes.  It
    throws one and the same 401 'Incorrect email or password' whether the
    email is unknown or the password does not match, and when it returns,
    the result is a stored user with that email whose stored password
    matched, without its password. *)
Theorem login_uniform (email password : string) (w : World) :
  (forall e w',
      loginUserWithEmailAndPassword email password w = (Thrown e, w') ->
      e = ApiError 401 "Incorrect email or password" /\ w' = w)
  /\ (forall p w',
      loginUserWithEmailAndPassword email password w = (Returned p, w') ->
      w' = w
      /\ exists u, In u (users (store w))
                   /\ User.email u = email
                   /\ ext_isPasswordMatch password (User.password u) = true
                   /\ p = exclude_password u)
  /\ ((forall u, In u (users (store w)) -> User.email u <> email) ->
      loginUserWithEmailAndPassword email password w
      = (Thrown (ApiError 401 "Incorrect email or password"), w)).
Proof.
  unfold loginUserWithEmailAndPassword, bind, ret, throw. simpl.
  unfold mem_getUserByEmail.
  destruct (find (has_email email) (users (store w))) as [u|] eqn:Hu.
  - pose proof (find_some _ _ Hu) as [Hin He].
    unfold has_email in He. apply String.eqb_eq in He.
    destruct (ext_isPasswordMatch password (User.password u)) eqn:Hm.
    + split; [intros e w' [=]|]. split.
      * intros p w' [= <- <-]. split; [reflexivity|]. exists u. auto.
      * intros Hnone. exfalso. exact (Hnone u Hin He).
    + split; [now intros e w' [= <- <-]|]. split.
      * intros p w' [=].
      * intros Hnone. exfalso. exact (Hnone u Hin He).
  - split; [now intros e w' [= <- <-]|]. split.
    + intros p w' [=].
    + reflexivity.
Qed.

Lemma split_space_word (a b : string) :
  has_space a = false ->
  split_space (a ++ " " ++ b) = a :: split_space b.
Proof.
  induction a as [|c a IH]; simpl; [reflexivity|].
  intros Hs. apply orb_false_iff in Hs. destruct Hs as [Hc Ha].
  specialize (IH Ha). simpl in IH. now rewrite Hc, IH.
Qed.

Lemma split_space_one (a : string) :
  has_space a = false -> split_space a = [a].
Proof.
  induction a as [|c a IH]; simpl; [reflexivity|].
  intros Hs. apply orb_false_iff in Hs. destruct Hs as [Hc Ha].
  rewrite Hc. now rewrite (IH Ha).
Qed.

(** X12. The middleware takes the second space-separated word of the
    authorization header as the session token, whatever the first word is:
    the scheme is not checked.  A header of one word, like no header,
    gives the empty token. *)
Theorem bearer_second_word (scheme rest : string) (p : option string) :
  has_space scheme = false ->
  bearer (mkRequest (Some (scheme ++ " " ++ rest)) p)
  = hd "" (split_space rest)
  /\ (has_space rest = false ->
      bearer (mkRequest (Some (scheme ++ " " ++ rest)) p) = rest)
  /\ bearer (mkRequest (Some scheme) p) = ""
  /\ bearer (mkRequest None p) = "".
Proof.
  intros Hs. unfold bearer. cbn [headers_authorization].
  rewrite (split_space_word _ _ Hs), (split_space_one _ Hs).
  repeat split.
  - now destruct (split_space rest).
  - intros Hr. now rewrite (split_space_one _ Hr).
Qed.

(** X13. On a store in which every session has its owner the middleware
    always calls [next]; and when no stored session with the digest of the
    bearer token is still valid at the reading of the clock, it calls it
    with 401 'Please authenticate', whatever rights are required and
    whatever the route's [userId] is. *)
Theorem auth_requires_live_session (requiredRights : list string)
        (req : Request) (w : World) :
  sessions_owned (store w) ->
  fst (auth requiredRights req w) <> Pending
  /\ ((forall s, In s (sessions (store w)) ->
                 Session.id s = hashToken (bearer req) ->
                 Session.expiresAt s <= now w) ->
      fst (auth requiredRights req w)
      = NextErr (ApiError 401 "Please authenticate")).
Proof.
  intros Hown. unfold auth.
  destruct (find (has_session_id (hashToken (bearer req)))
                 (sessions (store w))) as [s|] eqn:Hs.
  - pose proof (find_some _ _ Hs) as [Hin Hid].
    apply has_session_id_eq in Hid.
    destruct (existsb_true_find _ _ _ (Hown s Hin)) as [u Hu].
    rewrite (validateSessionToken_found _ _ _ _ Hs Hu).
    destruct (now w >=? Session.expiresAt s) eqn:Hge.
    + simpl. split; [discriminate|reflexivity].
    + split.
      * destruct (clock w (S (reads w)) >=? _); simpl;
          destruct requiredRights; simpl; try discriminate;
          destruct (_ && _); discriminate.
      * intros Hdead. specialize (Hdead s Hin Hid). lia.
  - unfold validateSessionToken, bind, ret. simpl.
    unfold mem_session_findUnique_include_user. rewrite Hs. simpl.
    split; [discriminate|reflexivity].
Qed.

(** X14. With no required rights a stored session that is still valid is
    enough: the middleware calls [next()] with the session's owner as
    [req.user], whatever the route's [userId] is. *)
Theorem auth_without_rights (req : Request) (w : World) (s : Session.t) :
  unique_session_ids (store w) -> sessions_owned (store w) ->
  In s (sessions (store w)) ->
  Session.id s = hashToken (bearer req) ->
  now w < Session.expiresAt s ->
  exists u, fst (auth [] req w) = Next u
            /\ User.id u = Session.userId s
            /\ In u (users (store w)).
Proof.
  intros Huniq Hown Hin Hid Hlive.
  destruct (stored_session_found _ _ Huniq Hown Hin) as [Hs [u [Hu Huid]]].
  rewrite Hid in Hs. exists u. split; [|split; [exact Huid|]].
  - unfold auth. rewrite (validateSessionToken_found _ _ _ _ Hs Hu).
    destruct (now w >=? Session.expiresAt s) eqn:Hge; [lia|].
    now destruct (clock w (S (reads w)) >=? _).
  - now apply find_some in Hu.
Qed.


Lemma verifyEmail_not_found (token : string) (w : World) :
  find (token_where (hashToken token) VERIFY_EMAIL false)
       (tokens (store w)) = None ->
  verifyEmail token w
  = (Thrown (ApiError 401 "Email verification failed"), w).
Proof.
  intros Hf. unfold verifyEmail, try_catch, verifyEmail_try.
  unfold bind at 1. now rewrite verifyToken_find, Hf.
Qed.

End MoreOverTheStore.

(** * More of the services over any collaborators *)

Section MoreAnyCollaborators.
Context {W : Type} `{C : Collaborators W} `{D : Directory W}.

(** X9. Whichever step of the email verification fails (the token is not
    found, the deletion of the tokens throws, the update of the user
    throws), [verifyEmail] throws the 401 'Email verification failed'
    error and nothing else.  What was done before the failing step stays
    done: when the update throws, the tokens are already deleted. *)
Theorem verifyEmail_uniform_failure (token : string) (w : W) :
  let failed := ApiError 401 "Email verification failed" in
  (forall e w1,
      verifyToken token VERIFY_EMAIL false w = (Thrown e, w1) ->
      verifyEmail token w = (Thrown failed, w1))
  /\ (forall t w1 e w2,
      verifyToken token VERIFY_EMAIL false w = (Returned t, w1) ->
      token_deleteMany (Token.userId t) VERIFY_EMAIL w1 = (Thrown e, w2) ->
      verifyEmail token w = (Thrown failed, w2))
  /\ (forall t w1 n w2 e w3,
      verifyToken token VERIFY_EMAIL false w = (Returned t, w1) ->
      token_deleteMany (Token.userId t) VERIFY_EMAIL w1 = (Returned n, w2) ->
      updateUserById_isEmailVerified (Token.userId t) true w2
      = (Thrown e, w3) ->
      verifyEmail token w = (Thrown failed, w3))
  /\ (forall e w',
      verifyEmail token w = (Thrown e, w') -> e = failed).
Proof.
  intros failed. unfold verifyEmail, verifyEmail_try.
  repeat split.
  - intros e w1 Hv.
    erewrite try_catch_thrown; [reflexivity|].
    apply bind_thrown. exact Hv.
  - intros t w1 e w2 Hv Hd.
    erewrite try_catch_thrown; [reflexivity|].
    rewrite (bind_returned _ _ _ _ _ Hv).
    apply bind_thrown. exact Hd.
  - intros t w1 n w2 e w3 Hv Hd Hu.
    erewrite try_catch_thrown; [reflexivity|].
    rewrite (bind_returned _ _ _ _ _ Hv).
    rewrite (bind_returned _ _ _ _ _ Hd).
    apply bind_thrown. exact Hu.
  - intros e w'. unfold try_catch, throw.
    match goal with |- context [match ?m with _ => _ end] =>
      destruct m as [[[]|cause] w1] end.
    + discriminate.
    + now intros [= <- _].
Qed.

End MoreAnyCollaborators.

(** * The services in the runtime with random bytes *)

Section OverTheRuntime.
Context `{E : Externals} `{E2 : MoreExternals}.
#[local] Existing Instance runtime.
#[local] Existing Instance runtime_directory.
#[local] Existing Instance runtime_entropy.

Ltac lift_cases :=
  repeat match goal with
         | |- context [find ?p ?l] => destruct (find p l); simpl
         | |- context [existsb ?p ?l] => destruct (existsb p l); simpl
         end;
  reflexivity.

(** The services that take no random bytes run in the runtime as they run
    on its world. *)
Lemma verifyToken_lift (token : string) (ty : TokenType) (bl : bool)
      (r : Runtime) :
  verifyToken token ty bl r
  = lift (verifyToken (C := memory) token ty bl) r.
Proof.
  unfold verifyToken, hashToken, lift, bind, ret, throw. simpl. unfold lift.
  unfold mem_token_findFirst. lift_cases.
Qed.

Lemma saveToken_lift (token userId : string) (e : Z) (ty : TokenType)
      (bl : bool) (r : Runtime) :
  saveToken token userId e ty bl r
  = lift (saveToken (C := memory) token userId e ty bl) r.
Proof.
  unfold saveToken, hashToken, lift, bind, ret. simpl. unfold lift.
  unfold mem_token_create. lift_cases.
Qed.


Lemma verifyEmail_lift (token : string) (r : Runtime) :
  verifyEmail token r
  = lift (verifyEmail (C := memory) (D := mem_directory) token) r.
Proof.
  unfold verifyEmail, verifyEmail_try, verifyToken, hashToken, try_catch, lift,
    bind, ret, throw.
  simpl. unfold lift.
  unfold mem_token_findFirst, mem_updateUserById_isEmailVerified,
    mem_token_deleteMany.
  simpl. lift_cases.
Qed.

(** What [generateResetPasswordToken] did when it returned. *)
Lemma generateResetPasswordToken_returned (email : string)
      (expires : option Z) (bl : bool) (r r' : Runtime) (token : string) :
  generateResetPasswordToken email expires bl r = (Returned token, r') ->
  exists u t,
    find (has_email email) (users (store (world r))) = Some u
    /\ token = ext_encodeBase32LowerCaseNoPadding (drawn r 20)
    /\ t = Token.mk (hashToken (C := memory) token) (User.id u)
                    (match expires with
                     | Some e => e
                     | None => now (world r) + minutes 10
                     end)
                    RESET_PASSWORD bl
    /\ existsb (has_token (Token.token t)) (tokens (store (world r))) = false
    /\ existsb (has_user_id (User.id u)) (users (store (world r))) = true
    /\ r' = mkRuntime
              (with_tokens
                 (match expires with
                  | Some _ => world r
                  | None => tick (world r)
                  end)
                 (tokens (store (world r)) ++ [t]))
              (entropy r) (S (draws r)).
Proof.
  unfold generateResetPasswordToken, generateSessionToken, bind, ret, throw.
  destruct expires as [e|]; simpl; unfold lift, draw_bytes; simpl;
    (destruct (find (has_email email) _) as [u|] eqn:Hu; [|discriminate]);
    rewrite saveToken_lift; unfold lift; simpl;
    match goal with
    | |- context [saveToken ?a ?b ?c ?d ?f ?w] =>
        destruct (saveToken (C := memory) a b c d f w) as [[t|x] w1] eqn:Hs
    end; try discriminate;
    intros [= <- <-];
    destruct (saveToken_returned _ _ _ _ _ _ _ _ Hs)
      as (Ht & Hfree & Huser & ->);
    exists u, t;
    (assert (Hh : Token.token t
                  = hashToken (C := memory)
                      (ext_encodeBase32LowerCaseNoPadding (drawn r 20)))
      by (rewrite Ht; reflexivity));
    rewrite Hh; repeat split; auto.
Qed.

(** What [generateVerifyEmailToken] did when it returned. *)
Lemma generateVerifyEmailToken_returned (user_id : string)
      (r r' : Runtime) (token : string) :
  generateVerifyEmailToken user_id r = (Returned token, r') ->
  exists t,
    token = ext_encodeBase32LowerCaseNoPadding (drawn r 20)
    /\ t = Token.mk (hashToken (C := memory) token) user_id
                    (now (world r) + minutes 10) VERIFY_EMAIL false
    /\ existsb (has_token (Token.token t)) (tokens (store (world r))) = false
    /\ existsb (has_user_id user_id) (users (store (world r))) = true
    /\ r' = mkRuntime
              (with_tokens (tick (world r)) (tokens (store (world r)) ++ [t]))
              (entropy r) (S (draws r)).
Proof.
  unfold generateVerifyEmailToken, generateSessionToken, bind, ret.
  simpl; unfold lift, draw_bytes; simpl.
  rewrite saveToken_lift; unfold lift; simpl.
  match goal with
  | |- context [saveToken ?a ?b ?c ?d ?f ?w] =>
      destruct (saveToken (C := memory) a b c d f w) as [[t|x] w1] eqn:Hs
  end; try discriminate.
  intros [= <- <-].
  destruct (saveToken_returned _ _ _ _ _ _ _ _ Hs)
    as (Ht & Hfree & Huser & ->).
  exists t.
  assert (Hh : Token.token t
               = hashToken (C := memory)
                   (ext_encodeBase32LowerCaseNoPadding (drawn r 20)))
    by (rewrite Ht; reflexivity).
  rewrite Hh. repeat split; auto.
Qed.

(** X15. For an email no stored user has, [generateResetPasswordToken]
    throws 404 'No users found with this email' before any token is
    generated: no random bytes are drawn and the store is as it was. *)
Theorem generateResetPasswordToken_unknown_email (email : string)
        (expires : option Z) (bl : bool) (r : Runtime) :
  (forall u, In u (users (store (world r))) -> User.email u <> email) ->
  exists r',
    generateResetPasswordToken email expires bl r
    = (Thrown (ApiError 404 "No users found with this email"), r')
    /\ store (world r') = store (world r)
    /\ draws r' = draws r.
Proof.
  intros Hnone.
  assert (Hf : find (has_email email) (users (store (world r))) = None).
  { destruct (find _ _) as [u|] eqn:Hf; [|reflexivity].
    apply find_some in Hf. destruct Hf as [Hin He].
    unfold has_email in He. apply String.eqb_eq in He.
    exfalso. exact (Hnone u Hin He). }
  unfold generateResetPasswordToken, bind, ret, throw.
  destruct expires as [e|]; simpl; unfold lift; simpl; rewrite Hf;
    eexists; repeat split.
Qed.

(** X16. When [generateResetPasswordToken] returns a raw token, the token
    is the base-32 encoding of 20 freshly drawn bytes, one row is added to
    the purpose tokens and it holds the digest of the token, the id of the
    user with that email, the expiry asked for (10 minutes after the
    reading of the clock by default) and the purpose RESET_PASSWORD; and
    [verifyToken] on the raw token returns that row. *)
Theorem generateResetPasswordToken_round_trip (email : string)
        (expires : option Z) (bl : bool) (r r' : Runtime) (token : string) :
  generateResetPasswordToken email expires bl r = (Returned token, r') ->
  exists u t,
    In u (users (store (world r))) /\ User.email u = email
    /\ token = ext_encodeBase32LowerCaseNoPadding (drawn r 20)
    /\ length (drawn r 20) = 20%nat
    /\ draws r' = S (draws r)
    /\ t = Token.mk (hashToken (C := memory) token) (User.id u)
                    (match expires with
                     | Some e => e
                     | None => now (world r) + minutes 10
                     end)
                    RESET_PASSWORD bl
    /\ tokens (store (world r')) = (tokens (store (world r)) ++ [t])%list
    /\ users (store (world r')) = users (store (world r))
    /\ sessions (store (world r')) = sessions (store (world r))
    /\ fst (verifyToken token RESET_PASSWORD bl r') = Returned t.
Proof.
  intros Hg.
  destruct (generateResetPasswordToken_returned _ _ _ _ _ _ Hg)
    as (u & t & Hu & Htok & Ht & Hfree & _ & ->).
  pose proof (find_some _ _ Hu) as [Hin He].
  unfold has_email in He. apply String.eqb_eq in He.
  exists u, t.
  split; [exact Hin|]. split; [exact He|]. split; [exact Htok|].
  split; [unfold drawn; now rewrite length_map, length_seq|].
  split; [reflexivity|]. split; [exact Ht|].
  split; [now destruct expires|].
  split; [now destruct expires|].
  split; [now destruct expires|].
  rewrite verifyToken_lift. unfold lift. rewrite verifyToken_find.
  assert (Hh : hashToken (C := memory) token = Token.token t)
    by now rewrite Ht.
  assert (Hl : tokens (store (world
                 (mkRuntime
                    (with_tokens
                       match expires with
                       | Some _ => world r
                       | None => tick (world r)
                       end
                       (tokens (store (world r)) ++ [t]))
                    (entropy r) (S (draws r)))))
               = (tokens (store (world r)) ++ [t])%list)
    by now destruct expires.
  rewrite Hl, Hh, (issued_token_found _ _ _ _ Hfree).
  assert (Hw : token_where (Token.token t) RESET_PASSWORD bl t = true)
    by (apply token_where_eq; rewrite Ht; auto).
  now rewrite Hw.
Qed.


(** X18. The raw token returned by [generateVerifyEmailToken] verifies
    the email once: [verifyEmail] with it returns and sets the verified
    flag in every row of that user, and a second [verifyEmail] with the
    same token throws the 401 error. *)
Theorem issue_then_verifyEmail (user_id : string) (r r' : Runtime)
        (token : string) :
  generateVerifyEmailToken user_id r = (Returned token, r') ->
  exists r'',
    verifyEmail token r' = (Returned tt, r'')
    /\ (exists u, In u (users (store (world r'')))
                  /\ User.id u = user_id)
    /\ (forall u, In u (users (store (world r''))) ->
                  User.id u = user_id -> User.isEmailVerified u = true)
    /\ fst (verifyEmail token r'')
       = Thrown (ApiError 401 "Email verification failed").
Proof.
  intros Hg.
  destruct (generateVerifyEmailToken_returned _ _ _ _ Hg)
    as (t & Htok & Ht & Hfree & Huser & ->).
  assert (Hh : hashToken (C := memory) token = Token.token t)
    by now rewrite Ht.
  assert (Hown : Token.userId t = user_id) by now rewrite Ht.
  assert (Hty : Token.type t = VERIFY_EMAIL) by now rewrite Ht.
  set (w1 := with_tokens (tick (world r)) (tokens (store (world r)) ++ [t])).
  assert (Hl : tokens (store w1) = (tokens (store (world r)) ++ [t])%list)
    by reflexivity.
  assert (Hus : users (store w1) = users (store (world r))) by reflexivity.
  clearbody w1.
  assert (Hft : find (token_where (hashToken (C := memory) token)
                                  VERIFY_EMAIL false)
                     (tokens (store w1)) = Some t).
  { rewrite Hl, Hh, (issued_token_found _ _ _ _ Hfree).
    assert (Hw : token_where (Token.token t) VERIFY_EMAIL false t = true)
      by (apply token_where_eq; rewrite Ht; auto).
    now rewrite Hw. }
  destruct (existsb_true_find _ _ _ Huser) as [u0 Hu0].
  assert (Hfu : find (has_user_id (Token.userId t)) (users (store w1))
                = Some u0) by now rewrite Hus, Hown.
  eexists. split.
  { rewrite verifyEmail_lift. unfold lift. simpl.
    rewrite (verifyEmail_found _ _ _ _ Hft Hfu). reflexivity. }
  simpl. rewrite Hus, Hl, Hown. split; [|split].
  - exists (set_isEmailVerified true u0). split.
    + apply in_map_iff. exists u0. split; [|now apply find_some in Hu0].
      apply find_some in Hu0. destruct Hu0 as [_ Hid]. now rewrite Hid.
    + simpl. apply find_some in Hu0. now apply has_user_id_eq.
  - intros u Hu Hid. apply in_map_iff in Hu.
    destruct Hu as [y [Hy _]].
    destruct (has_user_id user_id y) eqn:Hhy.
    + now subst u.
    + subst y. apply has_user_id_eq in Hid. congruence.
  - rewrite verifyEmail_lift. unfold lift. simpl.
    rewrite verifyEmail_not_found; [reflexivity|].
    simpl. rewrite Hh, <- Hown, <- Hty.
    now apply issued_token_consumed.
Qed.

Lemma createSession_lift (token userId : string) (e : option Z)
      (r : Runtime) :
  createSession token userId e r
  = lift (createSession (C := memory) token userId e) r.
Proof.
  unfold createSession, hashToken, lift, bind, ret.
  destruct e; simpl; unfold lift, mem_session_create; simpl; lift_cases.
Qed.

Lemma validateSessionToken_lift (token : string) (r : Runtime) :
  validateSessionToken token r
  = lift (validateSessionToken (C := memory) token) r.
Proof.
  unfold validateSessionToken, hashToken, lift, bind, ret. simpl.
  unfold lift, mem_session_findUnique_include_user. simpl.
  destruct (find (has_session_id _) _) as [s|]; [|reflexivity].
  destruct (find (has_user_id _) _) as [u|]; [|reflexivity].
  simpl. destruct (now (world r) >=? Session.expiresAt s).
  - unfold mem_session_delete. simpl.
    now destruct (find (has_session_id _) _).
  - simpl.
    destruct (clock (world r) (S (reads (world r)))
              >=? Session.expiresAt s - days 15); [|reflexivity].
    simpl. unfold mem_session_update. simpl.
    now destruct (find (has_session_id _) _).
Qed.

(** X19. When the login controller answers, it answers 200 with the user
    of that email, without password, and a raw token made of 20 freshly
    drawn bytes; it has added one session row, with the digest of the
    token, the id of that user and an expiry 30 days after the reading of
    the clock, and validating the raw token before then returns a session
    of that user. *)
Theorem login_issues_valid_session (req : LoginBody) (r r' : Runtime)
        (res : Response) :
  login req r = (Sent res, r') ->
  now (world r') < now (world r) + days 30 ->
  exists u token s u',
    In u (users (store (world r)))
    /\ User.email u = body_email req
    /\ ext_isPasswordMatch (body_password req) (User.password u) = true
    /\ res = mkResponse 200 (UserAndToken (exclude_password u) token)
    /\ token = ext_encodeBase32LowerCaseNoPadding (drawn r 20)
    /\ sessions (store (world r'))
       = (sessions (store (world r))
          ++ [Session.mk (hashToken (C := memory) token) (User.id u)
                         (now (world r) + days 30)])%list
    /\ fst (validateSessionToken token r')
       = Returned (mkResult (Some s) (Some u'))
    /\ Session.userId s = User.id u
    /\ User.id u' = User.id u.
Proof.
  unfold login, catchAsync, loginUserWithEmailAndPassword,
    generateSessionToken.
  unfold bind at 1 2. unfold ret at 1. simpl. unfold lift. simpl.
  destruct (find (has_email (body_email req)) _) as [u|] eqn:Hu;
    [|discriminate].
  unfold ret at 1, throw at 1.
  destruct (ext_isPasswordMatch _ _) eqn:Hm; [|discriminate].
  unfold bind at 1 2. unfold draw_bytes, ret at 1. simpl.
  unfold bind. rewrite createSession_lift. unfold lift. simpl.
  change (drawn (with_world r (world r)) 20) with (drawn r 20).
  set (token := ext_encodeBase32LowerCaseNoPadding (drawn r 20)).
  destruct (createSession (C := memory) token (User.id u) None (world r))
    as [[s|x] w1] eqn:Hc; [|discriminate].
  unfold ret. intros [= <- <-] Hlive. simpl in Hlive.
  destruct (createSession_returned _ _ _ _ _ _ Hc)
    as (w0 & e & Hw0 & Hs & Hfree & Huser & Hw1).
  destruct Hw0 as [[Hsome _]|[_ [He Hw0]]]; [discriminate|].
  subst e w0.
  pose proof (find_some _ _ Hu) as [Hin Hem].
  unfold has_email in Hem. apply String.eqb_eq in Hem.
  assert (Hfind : find (has_session_id (hashToken (C := memory) token))
                       (sessions (store w1)) = Some s).
  { rewrite Hw1. simpl. apply find_app_new; [exact Hfree|].
    apply has_session_id_eq. now rewrite Hs. }
  destruct (existsb_true_find _ _ _ Huser) as [u' Hu'].
  assert (Hu1 : find (has_user_id (Session.userId s)) (users (store w1))
                = Some u').
  { rewrite Hw1, Hs. exact Hu'. }
  assert (Hid : User.id u' = User.id u).
  { apply find_some in Hu'. now apply has_user_id_eq. }
  assert (Hexp : Session.expiresAt s = now (world r) + days 30)
    by now rewrite Hs.
  assert (Hval : exists s',
             fst (validateSessionToken (C := memory) token w1)
             = Returned (mkResult (Some s') (Some u'))
             /\ Session.userId s' = User.id u).
  { rewrite (validateSessionToken_found _ _ _ _ Hfind Hu1), Hexp.
    destruct (now w1 >=? now (world r) + days 30) eqn:Hge; [lia|].
    destruct (clock w1 (S (reads w1)) >=? _).
    - eexists. split; [reflexivity|]. simpl. now rewrite Hs.
    - eexists. split; [reflexivity|]. now rewrite Hs. }
  destruct Hval as [s' [Hval Hown]].
  exists u, token, s', u'.
  split; [exact Hin|]. split; [exact Hem|]. split; [exact Hm|].
  split; [reflexivity|]. split; [reflexivity|].
  split; [simpl; rewrite Hw1, Hs; reflexivity|].
  split; [|split; [exact Hown|exact Hid]].
  rewrite validateSessionToken_lift. unfold lift. simpl.
  destruct (validateSessionToken (C := memory) token w1) as [o w2].
  exact Hval.
Qed.

(** X20. When the email is unknown or the password does not match the
    first user with that email, the login controller passes 401
    'Incorrect email or password' to [next]; no random bytes are drawn
    and no session is stored. *)
Theorem login_refused (req : LoginBody) (r : Runtime) :
  (forall u, find (has_email (body_email req)) (users (store (world r)))
             = Some u ->
             ext_isPasswordMatch (body_password req) (User.password u)
             = false) ->
  exists r',
    login req r
    = (NextCalled (ApiError 401 "Incorrect email or password"), r')
    /\ world r' = world r
    /\ draws r' = draws r.
Proof.
  intros Hbad.
  unfold login, catchAsync, loginUserWithEmailAndPassword.
  unfold bind at 1 2. simpl. unfold lift. simpl.
  destruct (find (has_email (body_email req)) _) as [u|] eqn:Hu.
  - unfold ret at 1. rewrite (Hbad u eq_refl). unfold throw.
    eexists. repeat split.
  - unfold throw. eexists. repeat split.
Qed.

End OverTheRuntime.

(** * Concrete runs *)

Section Runs.
#[local] Existing Instance toy.

Example hashToken_run : hashToken "tok" = "h:tok".
Proof. reflexivity. Qed.

Example split_space_run :
  split_space "Bearer tok" = ["Bearer"; "tok"]
  /\ split_space "Bearer" = ["Bearer"]
  /\ split_space "a  b" = ["a"; ""; "b"].
Proof. repeat split. Qed.

Example createSession_run :
  createSession "tok" "u1" None world0 = (Returned session1, world1).
Proof. reflexivity. Qed.

Example createSession_conflict :
  createSession "tok" "u2" None world1
  = (Thrown (StoreError "P2002"), tick world1).
Proof. reflexivity. Qed.

(** More than 15 days remain: nothing is written. *)
Example validate_fresh_run :
  validateSessionToken "tok" world1
  = (Returned (mkResult (Some session1) (Some alice)), tick (tick world1)).
Proof. reflexivity. Qed.

Example validate_unknown_run :
  validateSessionToken "nope" world1 = (Returned (mkResult None None), world1).
Proof. reflexivity. Qed.

(** Issue, validate, invalidate, validate again. *)
Example end_to_end_run :
  exists w2 w3,
    validateSessionToken "tok" world1
    = (Returned (mkResult (Some session1) (Some alice)), w2)
    /\ invalidateSession "tok" w2 = (Returned tt, w3)
    /\ validateSessionToken "tok" w3 = (Returned (mkResult None None), w3).
Proof. do 2 eexists. repeat split. Qed.

Example verify_blacklisted_run :
  verifyToken "black" RESET_PASSWORD true world_tokens
  = (Returned token_black, world_tokens).
Proof. reflexivity. Qed.

Example resetPassword_run :
  resetPassword "reset" "secret99" world_tokens = (Returned tt, world_reset).
Proof. reflexivity. Qed.

Example auth_no_rights_run :
  auth [] request_other world1 = (Next alice, tick (tick world1)).
Proof. reflexivity. Qed.

Example auth_unknown_run :
  auth ["getUsers"] (mkRequest None (Some "u1")) world1
  = (NextErr (ApiError 401 "Please authenticate"), world1).
Proof. reflexivity. Qed.

End Runs.

(** * The theorems at concrete inputs *)

Section Witnesses.
#[local] Existing Instance toy.

Ltac concrete_rows :=
  repeat match goal with
         | |- NoDup _ => constructor
         | |- ~ In _ _ => simpl; intuition discriminate
         | |- forall _, _ => intro
         | H : _ \/ _ |- _ => destruct H as [<-|H]
         | H : False |- _ => destruct H
         | |- _ = _ => reflexivity
         end.

Lemma world_sessions_ok :
  unique_session_ids (store world_sessions)
  /\ sessions_owned (store world_sessions).
Proof.
  split.
  - unfold unique_session_ids. simpl. concrete_rows.
  - unfold sessions_owned. simpl. concrete_rows.
Defined.

Lemma world_tokens_ok : unique_token_ids (store world_tokens).
Proof. unfold unique_token_ids. simpl. concrete_rows. Defined.

Lemma session_round_trip_witness :
  createSession "tok" "u1" None world0 = (Returned session1, world1)
  /\ now world1 < Session.expiresAt session1
  /\ exists r w2 s' u,
      validateSessionToken "tok" world1 = (Returned r, w2)
      /\ session r = Some s' /\ user r = Some u
      /\ User.id u = "u1"
      /\ Session.userId s' = "u1"
      /\ Session.id s' = Session.id session1.
Proof.
  assert (H1 : createSession "tok" "u1" None world0
               = (Returned session1, world1)) by reflexivity.
  assert (H2 : now world1 < Session.expiresAt session1) by reflexivity.
  split; [exact H1|]. split; [exact H2|].
  exact (session_round_trip "tok" "u1" None world0 world1 session1 H1 H2).
Defined.

Lemma lazy_expiry_witness :
  Session.expiresAt session_old <= now world_sessions
  /\ exists w',
      validateSessionToken "old" world_sessions
      = (Returned (mkResult None None), w')
      /\ find (has_session_id (Session.id session_old)) (sessions (store w'))
         = None
      /\ session_findUnique_include_user (Session.id session_old) w'
         = (Returned None, w')
      /\ (forall x, In x (sessions (store w'))
                    <-> In x (sessions (store world_sessions))
                        /\ x <> session_old)
      /\ users (store w') = users (store world_sessions)
      /\ tokens (store w') = tokens (store world_sessions).
Proof.
  assert (H : Session.expiresAt session_old <= now world_sessions)
    by (vm_compute; discriminate).
  split; [exact H|].
  exact (lazy_expiry "old" world_sessions session_old
           (proj1 world_sessions_ok) (proj2 world_sessions_ok)
           (or_introl eq_refl) eq_refl H).
Defined.

Lemma sliding_renewal_witness :
  now world_sessions < Session.expiresAt session_soon
  /\ exists u r w',
      validateSessionToken "soon" world_sessions = (Returned r, w')
      /\ user r = Some u /\ User.id u = "u2"
      /\ (1001 >= Session.expiresAt session_soon - days 15 ->
          session r = Some (set_expiresAt (1002 + days 30) session_soon)
          /\ find (has_session_id "h:soon") (sessions (store w'))
             = Some (set_expiresAt (1002 + days 30) session_soon)
          /\ (forall x, In x (sessions (store world_sessions)) ->
                        x <> session_soon -> In x (sessions (store w')))
          /\ users (store w') = users (store world_sessions)
          /\ tokens (store w') = tokens (store world_sessions))
      /\ (1001 < Session.expiresAt session_soon - days 15 ->
          session r = Some session_soon
          /\ store w' = store world_sessions).
Proof.
  assert (H : now world_sessions < Session.expiresAt session_soon)
    by reflexivity.
  split; [exact H|].
  exact (sliding_renewal "soon" world_sessions session_soon
           (proj1 world_sessions_ok) (proj2 world_sessions_ok)
           (or_intror (or_introl eq_refl)) eq_refl H).
Defined.

Lemma hash_only_persistence_witness :
  createSession "tok" "u1" None world0 = (Returned session1, world1)
  /\ exists e,
      session1 = Session.mk "h:tok" "u1" e
      /\ store world1 = mkStore (users (store world0))
                                (sessions (store world0) ++ [session1])
                                (tokens (store world0)).
Proof.
  assert (H : createSession "tok" "u1" None world0
              = (Returned session1, world1)) by reflexivity.
  split; [exact H|].
  exact (proj1 (hash_only_persistence "tok" "u1") None world0 session1 world1 H).
Defined.

Lemma verifyToken_ignores_expiry_witness :
  Token.expires token_reset < now world_tokens
  /\ verifyToken "reset" RESET_PASSWORD false world_tokens
     = (Returned token_reset, world_tokens).
Proof.
  split; [reflexivity|].
  exact (verifyToken_ignores_expiry "reset" RESET_PASSWORD false world_tokens
           token_reset world_tokens_ok (or_introl eq_refl)
           eq_refl eq_refl eq_refl).
Defined.

Lemma blacklist_isolation_witness :
  Token.blacklisted token_black = true
  /\ verifyToken "black" RESET_PASSWORD false world_tokens
     = (Thrown (Error "Token not found"), world_tokens).
Proof.
  split; [reflexivity|].
  exact (blacklist_isolation "black" RESET_PASSWORD world_tokens token_black
           world_tokens_ok (or_intror (or_introl eq_refl))
           eq_refl eq_refl eq_refl).
Defined.

Lemma reset_token_single_use_witness :
  resetPassword "reset" "secret99" world_tokens = (Returned tt, world_reset)
  /\ exists t,
      In t (tokens (store world_tokens))
      /\ Token.token t = "h:reset"
      /\ Token.type t = RESET_PASSWORD
      /\ (forall t', In t' (tokens (store world_reset)) ->
                     ~ (Token.userId t' = Token.userId t
                        /\ Token.type t' = RESET_PASSWORD))
      /\ (forall bl,
             verifyToken "reset" RESET_PASSWORD bl world_reset
             = (Thrown (Error "Token not found"), world_reset)).
Proof.
  assert (H : resetPassword "reset" "secret99" world_tokens
              = (Returned tt, world_reset)) by reflexivity.
  split; [exact H|].
  exact (reset_token_single_use "reset" "secret99" world_tokens world_reset
           world_tokens_ok H).
Defined.

Lemma auth_decision_witness :
  (* bob: a role that grants rights, on alice's route *)
  roleRights_get (User.role bob) = Some ["getUsers"; "manageUsers"]
  /\ auth ["getUsers"] (mkRequest (Some "Bearer bobtok") (Some "u1"))
          world_roles
     = (Next bob, tick (tick world_roles))
  /\ auth ["getUsers"; "deleteUsers"]
          (mkRequest (Some "Bearer bobtok") (Some "u1")) world_roles
     = (NextErr (ApiError 403 "Forbidden"), tick (tick world_roles))
  (* dave: a role absent from the table *)
  /\ roleRights_get (User.role dave) = None
  /\ auth ["getUsers"] (mkRequest (Some "Bearer davetok") (Some "u4"))
          world_roles
     = (Next dave, tick (tick world_roles))
  /\ auth ["getUsers"] (mkRequest (Some "Bearer davetok") (Some "u1"))
          world_roles
     = (NextErr (ApiError 403 "Forbidden"), tick (tick world_roles))
  (* alice: a role that grants nothing *)
  /\ roleRights_get (User.role alice) = Some []
  /\ auth ["getUsers"] request_own world1 = (Next alice, tick (tick world1))
  /\ auth ["getUsers"] request_other world1
     = (NextErr (ApiError 403 "Forbidden"), tick (tick world1)).
Proof.
  assert (Hne : ["getUsers"] <> @nil string) by discriminate.
  assert (Hne2 : ["getUsers"; "deleteUsers"] <> @nil string) by discriminate.
  assert (Hbob : validateSessionToken "bobtok" world_roles
                 = (Returned (mkResult (Some session_bob) (Some bob)),
                    tick (tick world_roles))) by reflexivity.
  assert (Hdave : validateSessionToken "davetok" world_roles
                  = (Returned (mkResult (Some session_dave) (Some dave)),
                     tick (tick world_roles))) by reflexivity.
  assert (Halice : validateSessionToken (bearer request_own) world1
                   = (Returned (mkResult (Some session1) (Some alice)),
                      tick (tick world1))) by reflexivity.
  split; [reflexivity|]. split.
  { apply (proj1 (auth_decision ["getUsers"]
                    (mkRequest (Some "Bearer bobtok") (Some "u1"))
                    world_roles _ session_bob bob Hne Hbob)).
    left. intros r [<-|[]]. left. reflexivity. }
  split.
  { apply (proj1 (proj2 (auth_decision ["getUsers"; "deleteUsers"]
                           (mkRequest (Some "Bearer bobtok") (Some "u1"))
                           world_roles _ session_bob bob Hne2 Hbob))).
    intros Hal.
    apply (proj1 (auth_decision ["getUsers"; "deleteUsers"]
                    (mkRequest (Some "Bearer bobtok") (Some "u1"))
                    world_roles _ session_bob bob Hne2 Hbob)) in Hal.
    destruct Hal as [Hall|Hown]; [|discriminate Hown].
    destruct (Hall "deleteUsers" (or_intror (or_introl eq_refl)))
      as [H|[H|[]]]; discriminate H. }
  split; [reflexivity|]. split.
  { exact (proj1 (proj2 (proj2 (auth_decision ["getUsers"]
                                  (mkRequest (Some "Bearer davetok")
                                             (Some "u4"))
                                  world_roles _ session_dave dave Hne Hdave))
                   eq_refl) eq_refl). }
  split.
  { refine (proj2 (proj2 (proj2 (auth_decision ["getUsers"]
                                   (mkRequest (Some "Bearer davetok")
                                              (Some "u1"))
                                   world_roles _ session_dave dave Hne Hdave))
                    eq_refl) _).
    discriminate. }
  split; [reflexivity|]. split.
  - exact (proj1 (proj2 (proj2 (auth_decision ["getUsers"] request_own
                                  world1 _ session1 alice Hne Halice))
                   eq_refl) eq_refl).
  - refine (proj2 (proj2 (proj2 (auth_decision ["getUsers"] request_other
                                   world1 _ session1 alice Hne Halice))
                    eq_refl) _).
    discriminate.
Defined.

Lemma resetPassword_uniform_failure_witness :
  verifyToken "nope" RESET_PASSWORD false world0
  = (Thrown (Error "Token not found"), world0)
  /\ resetPassword "nope" "secret99" world0
     = (Thrown (ApiError 401 "Password reset failed"),
        logger_error (Error "Token not found") world0).
Proof.
  assert (H : verifyToken "nope" RESET_PASSWORD false world0
              = (Thrown (Error "Token not found"), world0)) by reflexivity.
  split; [exact H|].
  exact (proj1 (resetPassword_uniform_failure "nope" "secret99" world0) _ _ H).
Defined.

Lemma validateSessionToken_shape_witness :
  validateSessionToken "tok" world1
  = (Returned (mkResult (Some session1) (Some alice)), tick (tick world1))
  /\ ((None = Some session1 /\ None = Some alice)
      \/ exists s u, Some session1 = Some s /\ Some alice = Some u).
Proof.
  assert (H : validateSessionToken "tok" world1
              = (Returned (mkResult (Some session1) (Some alice)),
                 tick (tick world1))) by reflexivity.
  split; [exact H|].
  destruct (validateSessionToken_shape "tok" world1 _ _ H) as [[Hs Hu]|Hb].
  - left. split; [symmetry; exact Hs|symmetry; exact Hu].
  - right. exact Hb.
Defined.

End Witnesses.

(** * The further theorems at concrete inputs *)

Section MoreWitnesses.
#[local] Existing Instance toy.
#[local] Existing Instance toy2.

Ltac concrete_rows :=
  repeat match goal with
         | |- NoDup _ => constructor
         | |- ~ In _ _ => simpl; intuition discriminate
         | |- forall _, _ => intro
         | H : _ \/ _ |- _ => destruct H as [<-|H]
         | H : False |- _ => destruct H
         | |- _ = _ => reflexivity
         end.

Lemma world_sessions_rows :
  unique_session_ids (store world_sessions)
  /\ sessions_owned (store world_sessions).
Proof.
  split.
  - unfold unique_session_ids. simpl. concrete_rows.
  - unfold sessions_owned. simpl. concrete_rows.
Defined.

Lemma world1_rows :
  unique_session_ids (store world1) /\ sessions_owned (store world1).
Proof.
  split.
  - unfold unique_session_ids. simpl. concrete_rows.
  - unfold sessions_owned. simpl. concrete_rows.
Defined.

Lemma world_mail_rows : unique_token_ids (store world_mail).
Proof. unfold unique_token_ids. simpl. concrete_rows. Defined.

Lemma logout_revokes_witness :
  In session_soon (sessions (store world_sessions))
  /\ exists w',
      logout "soon" world_sessions = (Returned tt, w')
      /\ validateSessionToken "soon" w' = (Returned (mkResult None None), w')
      /\ (forall x, In x (sessions (store w'))
                    <-> In x (sessions (store world_sessions))
                        /\ x <> session_soon)
      /\ users (store w') = users (store world_sessions)
      /\ tokens (store w') = tokens (store world_sessions)
      /\ reads w' = reads world_sessions.
Proof.
  assert (H : In session_soon (sessions (store world_sessions)))
    by (right; left; reflexivity).
  split; [exact H|].
  exact (logout_revokes "soon" world_sessions session_soon
           (proj1 world_sessions_rows) H eq_refl).
Defined.

Lemma validateSessionToken_total_witness :
  (exists r w', validateSessionToken "old" world_sessions = (Returned r, w'))
  /\ (find (has_session_id (hashToken "nope")) (sessions (store world_sessions))
      = None
      /\ validateSessionToken "nope" world_sessions
         = (Returned (mkResult None None), world_sessions)).
Proof.
  split.
  - exact (proj1 (validateSessionToken_total "old" world_sessions
                    (proj2 world_sessions_rows))).
  - split; [reflexivity|].
    exact (proj2 (validateSessionToken_total "nope" world_sessions
                    (proj2 world_sessions_rows)) eq_refl).
Defined.

Lemma validateSessionToken_frame_witness :
  let run := validateSessionToken "soon" world_sessions in
  users (store (snd run)) = users (store world_sessions)
  /\ tokens (store (snd run)) = tokens (store world_sessions)
  /\ (forall x, Session.id x <> hashToken "soon" ->
                (In x (sessions (store (snd run)))
                 <-> In x (sessions (store world_sessions)))).
Proof.
  intros run.
  exact (validateSessionToken_frame "soon" world_sessions (snd run) (fst run)
           (surjective_pairing run)).
Defined.

Lemma validateSessionToken_keeps_window_witness :
  now world_sessions < Session.expiresAt session_soon
  /\ clock world_sessions 1 <= clock world_sessions 2
  /\ exists s' u w',
      validateSessionToken "soon" world_sessions
      = (Returned (mkResult (Some s') (Some u)), w')
      /\ find (has_session_id (hashToken "soon")) (sessions (store w'))
         = Some s'
      /\ Session.expiresAt session_soon <= Session.expiresAt s'
      /\ clock world_sessions 1 + days 15 < Session.expiresAt s'.
Proof.
  assert (H1 : now world_sessions < Session.expiresAt session_soon)
    by reflexivity.
  assert (H2 : clock world_sessions 1 <= clock world_sessions 2)
    by (vm_compute; discriminate).
  split; [exact H1|]. split; [exact H2|].
  exact (validateSessionToken_keeps_window "soon" world_sessions session_soon
           (proj1 world_sessions_rows) (proj2 world_sessions_rows)
           (or_intror (or_introl eq_refl)) eq_refl H1 H2).
Defined.

Lemma fresh_session_not_rewritten_witness :
  createSession "tok" "u1" None world0 = (Returned session1, world1)
  /\ Session.expiresAt session1 = now world0 + days 30
  /\ exists u w2,
      validateSessionToken "tok" world1
      = (Returned (mkResult (Some session1) (Some u)), w2)
      /\ User.id u = "u1"
      /\ store w2 = store world1.
Proof.
  assert (H : createSession "tok" "u1" None world0
              = (Returned session1, world1)) by reflexivity.
  split; [exact H|].
  exact (fresh_session_not_rewritten "tok" "u1" world0 world1 session1 H
           eq_refl eq_refl).
Defined.

Lemma saveToken_verifyToken_witness :
  let w' := with_tokens world_tokens
              (tokens (store world_tokens) ++ [token_fresh]) in
  saveToken "fresh" "u2" 5000 VERIFY_EMAIL false world_tokens
  = (Returned token_fresh, w')
  /\ verifyToken "fresh" VERIFY_EMAIL false w' = (Returned token_fresh, w')
  /\ verifyToken "fresh" RESET_PASSWORD false w'
     = (Thrown (Error "Token not found"), w').
Proof.
  intros w'.
  assert (H : saveToken "fresh" "u2" 5000 VERIFY_EMAIL false world_tokens
              = (Returned token_fresh, w')) by reflexivity.
  split; [exact H|].
  destruct (saveToken_verifyToken "fresh" "u2" 5000 VERIFY_EMAIL false
              world_tokens w' token_fresh H) as (Hsame & _ & _ & Hother).
  split; [exact Hsame|].
  apply Hother. left. discriminate.
Defined.

Lemma resetPassword_effects_witness :
  resetPassword "reset" "secret99" world_tokens = (Returned tt, world_reset)
  /\ sessions (store world_reset) = sessions (store world_tokens)
  /\ exists t,
      In t (tokens (store world_tokens))
      /\ Token.token t = "h:reset"
      /\ (exists u', In u' (users (store world_reset))
                     /\ User.id u' = Token.userId t)
      /\ (forall x, In x (tokens (store world_reset)) <->
                    In x (tokens (store world_tokens))
                    /\ ~ (Token.userId x = Token.userId t
                          /\ Token.type x = RESET_PASSWORD)).
Proof.
  assert (H : resetPassword "reset" "secret99" world_tokens
              = (Returned tt, world_reset)) by reflexivity.
  split; [exact H|].
  destruct (resetPassword_effects "reset" "secret99" world_tokens world_reset H)
    as (t & Hin & Hh & _ & _ & Hs & Hu & _ & Ht & _).
  split; [exact Hs|]. exists t. auto.
Defined.

Lemma resetPassword_unknown_token_witness :
  exists w',
    resetPassword "black" "secret99" world_tokens
    = (Thrown (ApiError 401 "Password reset failed"), w')
    /\ store w' = store world_tokens
    /\ logged w' = (logged world_tokens ++ [Error "Token not found"])%list.
Proof.
  apply (resetPassword_unknown_token "black" "secret99" world_tokens).
  simpl. intros t Hin Hh Hty.
  repeat (destruct Hin as [<-|Hin]; [try discriminate Hh; reflexivity|]).
  destruct Hin.
Defined.

Lemma verifyEmail_uniform_failure_witness :
  verifyToken "nope" VERIFY_EMAIL false world0
  = (Thrown (Error "Token not found"), world0)
  /\ verifyEmail "nope" world0
     = (Thrown (ApiError 401 "Email verification failed"), world0).
Proof.
  assert (H : verifyToken "nope" VERIFY_EMAIL false world0
              = (Thrown (Error "Token not found"), world0)) by reflexivity.
  split; [exact H|].
  exact (proj1 (verifyEmail_uniform_failure "nope" world0) _ _ H).
Defined.

Lemma verifyEmail_effects_witness :
  Token.expires token_stale < now world_mail
  /\ exists w',
      verifyEmail "stale" world_mail = (Returned tt, w')
      /\ users (store w')
         = map (fun x => if has_user_id "u2" x
                         then set_isEmailVerified true x else x)
               (users (store world_mail))
      /\ (forall x, In x (tokens (store w')) <->
                    In x (tokens (store world_mail))
                    /\ ~ (Token.userId x = "u2"
                          /\ Token.type x = VERIFY_EMAIL))
      /\ sessions (store w') = sessions (store world_mail)
      /\ (forall bl,
             verifyToken "stale" VERIFY_EMAIL bl w'
             = (Thrown (Error "Token not found"), w')).
Proof.
  split; [reflexivity|].
  exact (verifyEmail_effects "stale" world_mail token_stale bob
           world_mail_rows (or_introl eq_refl) eq_refl eq_refl eq_refl
           (or_intror (or_introl eq_refl)) eq_refl).
Defined.

Lemma login_uniform_witness :
  (forall u, In u (users (store world0)) ->
             User.email u <> "mallory@example.com")
  /\ loginUserWithEmailAndPassword "mallory@example.com" "pw" world0
     = (Thrown (ApiError 401 "Incorrect email or password"), world0).
Proof.
  assert (H : forall u, In u (users (store world0)) ->
                        User.email u <> "mallory@example.com").
  { simpl. intros u [<-|[<-|[]]]; discriminate. }
  split; [exact H|].
  exact (proj2 (proj2 (login_uniform "mallory@example.com" "pw" world0)) H).
Defined.

Lemma bearer_second_word_witness :
  has_space "Basic" = false
  /\ bearer (mkRequest (Some "Basic tok") None) = "tok".
Proof.
  split; [reflexivity|].
  exact (proj1 (proj2 (bearer_second_word "Basic" "tok" None eq_refl))
           eq_refl).
Defined.

Lemma auth_requires_live_session_witness :
  fst (auth ["getUsers"] (mkRequest None (Some "u1")) world1) <> Pending
  /\ fst (auth ["getUsers"] (mkRequest None (Some "u1")) world1)
     = NextErr (ApiError 401 "Please authenticate").
Proof.
  destruct (auth_requires_live_session ["getUsers"]
              (mkRequest None (Some "u1")) world1 (proj2 world1_rows))
    as [Hcalled Hrefused].
  split; [exact Hcalled|].
  apply Hrefused. simpl. intros s [<-|[]] Hid. discriminate Hid.
Defined.

Lemma auth_without_rights_witness :
  now world1 < Session.expiresAt session1
  /\ exists u, fst (auth [] request_other world1) = Next u
               /\ User.id u = Session.userId session1
               /\ In u (users (store world1)).
Proof.
  assert (H : now world1 < Session.expiresAt session1) by reflexivity.
  split; [exact H|].
  exact (auth_without_rights request_other world1 session1
           (proj1 world1_rows) (proj2 world1_rows) (or_introl eq_refl)
           eq_refl H).
Defined.

End MoreWitnesses.

Section RuntimeWitnesses.
#[local] Existing Instance toy.
#[local] Existing Instance toy2.
#[local] Existing Instance runtime.
#[local] Existing Instance runtime_directory.
#[local] Existing Instance runtime_entropy.

Lemma generateResetPasswordToken_unknown_email_witness :
  exists r',
    generateResetPasswordToken "mallory@example.com" None false runtime0
    = (Thrown (ApiError 404 "No users found with this email"), r')
    /\ store (world r') = store (world runtime0)
    /\ draws r' = draws runtime0.
Proof.
  apply (generateResetPasswordToken_unknown_email "mallory@example.com" None
           false runtime0).
  simpl. intros u [<-|[<-|[<-|[]]]]; discriminate.
Defined.

Lemma generateResetPasswordToken_round_trip_witness :
  generateResetPasswordToken "alice@example.com" None false runtime0
  = (Returned token0, runtime_reset)
  /\ exists u t,
      In u (users (store (world runtime0)))
      /\ User.email u = "alice@example.com"
      /\ Token.userId t = User.id u
      /\ Token.expires t = 1000 + minutes 10
      /\ tokens (store (world runtime_reset)) = [t]
      /\ fst (verifyToken token0 RESET_PASSWORD false runtime_reset)
         = Returned t.
Proof.
  assert (H : generateResetPasswordToken "alice@example.com" None false
                runtime0 = (Returned token0, runtime_reset)) by reflexivity.
  split; [exact H|].
  destruct (generateResetPasswordToken_round_trip _ _ _ _ _ _ H)
    as (u & t & Hin & He & _ & _ & _ & Ht & Hl & _ & _ & Hv).
  exists u, t. repeat split; auto; rewrite Ht; reflexivity.
Defined.


Lemma issue_then_verifyEmail_witness :
  generateVerifyEmailToken "u2" runtime0 = (Returned token0, runtime_verify)
  /\ exists r'',
      verifyEmail token0 runtime_verify = (Returned tt, r'')
      /\ (forall u, In u (users (store (world r''))) ->
                    User.id u = "u2" -> User.isEmailVerified u = true)
      /\ fst (verifyEmail token0 r'')
         = Thrown (ApiError 401 "Email verification failed").
Proof.
  assert (H : generateVerifyEmailToken "u2" runtime0
              = (Returned token0, runtime_verify)) by reflexivity.
  split; [exact H|].
  destruct (issue_then_verifyEmail _ _ _ _ H) as (r'' & Hv & _ & Hall & Hagain).
  exists r''. auto.
Defined.

Lemma login_issues_valid_session_witness :
  login (mkLoginBody "carol@example.com" "secret99") runtime0
  = (Sent (mkResponse 200 (UserAndToken (exclude_password carol) token0)),
     runtime_login)
  /\ now (world runtime_login) < now (world runtime0) + days 30
  /\ exists u s u',
      sessions (store (world runtime_login))
      = [Session.mk (hashToken (C := memory) token0) (User.id u)
                    (1000 + days 30)]
      /\ fst (validateSessionToken token0 runtime_login)
         = Returned (mkResult (Some s) (Some u'))
      /\ Session.userId s = "u3" /\ User.id u' = "u3".
Proof.
  assert (H : login (mkLoginBody "carol@example.com" "secret99") runtime0
              = (Sent (mkResponse 200
                         (UserAndToken (exclude_password carol) token0)),
                 runtime_login)) by reflexivity.
  assert (Hlive : now (world runtime_login) < now (world runtime0) + days 30)
    by reflexivity.
  split; [exact H|]. split; [exact Hlive|].
  destruct (login_issues_valid_session _ _ _ _ H Hlive)
    as (u & token & s & u' & _ & _ & _ & Hres & Htok & Hrow & Hv & Hs & Hu).
  assert (Hid : User.id u = "u3").
  { exact (f_equal (fun res => match body res with
                               | UserAndToken p _ => PublicUser.id p
                               | NoBody => ""
                               end) (eq_sym Hres)). }
  exists u, s, u'. rewrite Htok in Hv, Hrow.
  split; [exact Hrow|]. split; [exact Hv|].
  rewrite Hs, Hu. auto.
Defined.

Lemma login_refused_witness :
  exists r',
    login (mkLoginBody "carol@example.com" "wrong") runtime0
    = (NextCalled (ApiError 401 "Incorrect email or password"), r')
    /\ world r' = world runtime0
    /\ draws r' = draws runtime0.
Proof.
  apply (login_refused (mkLoginBody "carol@example.com" "wrong") runtime0).
  simpl. intros u [= <-]. reflexivity.
Defined.

End RuntimeWitnesses.
